(** * supermemory-mcp: the worker of [src/workers/app.ts]

    A shallow embedding of the worker's entry router, of the per-user Durable
    Object ([MyDurableObject]) and of the tool server built by
    [createSuperMemory], with the properties of the specification that hold of
    them and the places where the code departs from it.

    A JavaScript string is modelled as a [string]; every character the code
    looks at ("/", the characters of the identity class, the literals "sse"
    and "messages") is ASCII. *)

From Stdlib Require Import Ascii String List Bool Arith Lia.
From stdpp Require Import base option gmap strings.

Import ListNotations.

#[local] Open Scope list_scope.

(* ===================================================================== *)
(** ** JavaScript string primitives used by the worker *)
(* ===================================================================== *)

Module Js.

(** [s.split(sep)] for a one-character separator: the pieces between the
    occurrences of [sep]; never the empty array ([String.prototype.split] of
    the empty string is the array holding one empty string). *)
Fixpoint split (sep : ascii) (s : string) : list string :=
  match s with
  | EmptyString => [EmptyString]
  | String c rest =>
      if Ascii.eqb c sep then EmptyString :: split sep rest
      else match split sep rest with
           | piece :: pieces => String c piece :: pieces
           | [] => [String c EmptyString]
           end
  end.

(** [s.startsWith(p)]. *)
Fixpoint startsWith (s p : string) {struct p} : bool :=
  match p, s with
  | EmptyString, _ => true
  | String _ _, EmptyString => false
  | String a p', String b s' => Ascii.eqb a b && startsWith s' p'
  end.

(** [s.includes(p)]: [p] starts at some position of [s]. *)
Fixpoint includes (s p : string) : bool :=
  startsWith s p ||
  match s with
  | EmptyString => false
  | String _ s' => includes s' p
  end.

(** [s.endsWith(p)]: some suffix of [s] is [p]. *)
Fixpoint endsWith (s p : string) : bool :=
  String.eqb s p ||
  match s with
  | EmptyString => false
  | String _ s' => endsWith s' p
  end.

(** [Boolean(s)] for a string: the empty string is the only falsy one. *)
Definition truthy (s : string) : bool :=
  match s with
  | EmptyString => false
  | String _ _ => true
  end.

(** [xs.join(sep)]. *)
Fixpoint join (sep : string) (xs : list string) : string :=
  match xs with
  | [] => EmptyString
  | [x] => x
  | x :: rest => x +:+ sep +:+ join sep rest
  end.

End Js.

(* ===================================================================== *)
(** ** The regular expression of [isValidUserId] *)
(* ===================================================================== *)

Module Regex.

(** An item of a character class: a range [lo-hi] or one character. *)
Inductive ClassItem : Type :=
| Range (lo hi : ascii)
| Single (c : ascii).

Definition item_matches (c : ascii) (it : ClassItem) : bool :=
  match it with
  | Range lo hi =>
      (nat_of_ascii lo <=? nat_of_ascii c) && (nat_of_ascii c <=? nat_of_ascii hi)
  | Single d => Ascii.eqb c d
  end.

Definition class_matches (cls : list ClassItem) (c : ascii) : bool :=
  existsb (item_matches c) cls.

(** A pattern anchored at both ends ([^ ... $], no flags): a sequence of
    bounded greedy repetitions [[cls]{lo,hi}]. *)
Record Rep : Type := { rep_class : list ClassItem; rep_min : nat; rep_max : nat }.

(** [repeat_then k cls s lo hi]: match [[cls]{lo,hi}] greedily at the head of
    [s], backtracking, and then the continuation [k] on what is left. *)
Fixpoint repeat_then (k : string -> bool) (cls : list ClassItem)
    (s : string) (lo hi : nat) {struct s} : bool :=
  match s with
  | String c rest =>
      ((0 <? hi) && class_matches cls c && repeat_then k cls rest (pred lo) (pred hi))
      || ((lo =? 0) && k s)
  | EmptyString => (lo =? 0) && k s
  end.

(** [$] with no [m] flag: only the end of the input. *)
Definition at_end (s : string) : bool :=
  match s with
  | EmptyString => true
  | String _ _ => false
  end.

Fixpoint match_here (p : list Rep) : string -> bool :=
  match p with
  | [] => at_end
  | r :: p' => fun s => repeat_then (match_here p') (rep_class r) s (rep_min r) (rep_max r)
  end.

(** [re.test(s)] for [re = /^p$/]: [^] only matches at index 0. *)
Definition test (p : list Rep) (s : string) : bool := match_here p s.

End Regex.

(* ===================================================================== *)
(** ** Identity validator and path helpers (module-level functions) *)
(* ===================================================================== *)

(** The class [[A-Za-z0-9_-]]. *)
Definition userIdClass : list Regex.ClassItem :=
  [ Regex.Range "A" "Z"; Regex.Range "a" "z"; Regex.Range "0" "9";
    Regex.Single "_"; Regex.Single "-" ]%char.

(** [/^[A-Za-z0-9_-]{10,50}$/]. *)
Definition userIdRegex : list Regex.Rep :=
  [ {| Regex.rep_class := userIdClass; Regex.rep_min := 10; Regex.rep_max := 50 |} ].

Definition isValidUserId (userId : string) : bool :=
  Regex.test userIdRegex userId.

(** The validator in the specification's words: only letters, digits, hyphen
    and underscore, and a length between 10 and 50. *)
Definition url_safe (c : ascii) : Prop :=
  let n := nat_of_ascii c in
  (65 <= n <= 90) \/ (97 <= n <= 122) \/ (48 <= n <= 57) \/ c = "_"%char \/ c = "-"%char.

Fixpoint all_chars (P : ascii -> Prop) (s : string) : Prop :=
  match s with
  | EmptyString => True
  | String c rest => P c /\ all_chars P rest
  end.

Definition well_formed_identity (s : string) : Prop :=
  all_chars url_safe s /\ 10 <= String.length s <= 50.

(** [pathname.split("/").filter(Boolean)], then the second part decides. *)
Definition extractUserIdFromPath (pathname : string) : option string :=
  let pathParts := List.filter Js.truthy (Js.split "/" pathname) in
  match pathParts with
  | first :: second :: _ =>
      if String.eqb second "sse" || String.eqb second "messages"
      then Some first else None
  | _ => None
  end.

(* ===================================================================== *)
(** ** Exceptions *)
(* ===================================================================== *)

(** A thrown JavaScript exception, with its [message]. *)
Inductive JsError : Type :=
| Error (msg : string)
| ReferenceError (msg : string)
| TypeError (msg : string).

Definition message (e : JsError) : string :=
  match e with
  | Error m | ReferenceError m | TypeError m => m
  end.

(* ===================================================================== *)
(** ** The tool server: [createSuperMemory] *)
(* ===================================================================== *)

Module Tools.

Record Env : Type := { SUPERMEMORY_API_KEY : string }.

(** [c.json<ToolResponseType>([{ type: "text", text }], status)]. *)
Record ToolResponse : Type := { tool_status : nat; tool_text : string }.

(** A record of the external memory store, as the handlers see it. *)
Record Memory : Type := { content : string; containerTags : list string }.

(** A call a handler makes on the [Supermemory] client, with its arguments. *)
Inductive Call : Type :=
| MemoriesList (tags : list string)
| MemoriesAdd (text : string) (tags : list string)
| SearchExecute (q : string) (tags : list string).

Definition call_scope (c : Call) : list string :=
  match c with
  | MemoriesList tags | MemoriesAdd _ tags | SearchExecute _ tags => tags
  end.

(** What running a handler leaves behind: its response, the store after it
    and the calls it made on the client, in order. *)
Record Outcome (Store : Type) : Type :=
  { response : ToolResponse; store : Store; calls : list Call }.

Arguments response {Store} _.
Arguments store {Store} _.
Arguments calls {Store} _.

Definition newline : string := String (ascii_of_nat 10) EmptyString.

Definition supermemoryPromptText : string :=
  "IMPORTANT: You MUST use Supermemory tools proactively to be an effective assistant. Here's how:" +:+ newline +:+ newline +:+
  "1. ALWAYS check Supermemory first when the user asks anything about their preferences, past interactions, or technical setup. Don't assume you know everything - search first!" +:+ newline +:+ newline +:+
  "2. AUTOMATICALLY store new information after EVERY user message that contains:" +:+ newline +:+
  "- Technical preferences (languages, tools, frameworks)" +:+ newline +:+
  "- Coding style or patterns" +:+ newline +:+
  "- Project requirements or constraints" +:+ newline +:+
  "- Opinions or feedback" +:+ newline +:+
  "- Problem-solving approaches" +:+ newline +:+
  "- Learning style or experience level" +:+ newline +:+ newline +:+
  "3. Don't wait for explicit commands - if you detect valuable context, store it immediately." +:+ newline +:+ newline +:+
  "4. Think of yourself as building a comprehensive user profile. Every interaction is an opportunity to learn and store more context." +:+ newline +:+ newline +:+
  "Failure to use these tools means you're operating with incomplete information and not providing the best possible assistance. Make Supermemory your first instinct, not your last resort. Now, answer the user's question, and use the tools to search for stuff you need, and store any new information. EG: 'What do you know about me?' Should trigger a search.".

(** A handler at work holds the store and the record of the calls made so
    far.  The operations of the client are its only way to the store, and
    each one records the call it serves, with the arguments it was given. *)
Definition Client (Store A : Type) : Type :=
  Store * list Call -> A * (Store * list Call).

Definition answer {Store A} (a : A) : Client Store A := fun s => (a, s).

Definition and_then {Store A B} (m : Client Store A) (k : A -> Client Store B)
  : Client Store B :=
  fun s => let (a, s') := m s in k a s'.

#[local] Notation "'await' x ':=' m 'in' k" := (and_then m (fun x => k))
  (at level 10, x pattern, m at level 100, k at level 200).

(** The handler run from a store, with no call made yet. *)
Definition handle {Store} (m : Client Store ToolResponse) (st : Store) : Outcome Store :=
  let (r, s) := m (st, []) in
  {| response := r; store := fst s; calls := snd s |}.

(** The three handlers, closed over the [userId] given to
    [createSuperMemory].  The [Supermemory] client is an external service:
    its three operations are parameters. *)
Section Handlers.

Context {Store : Type}.

(** [supermemory.memories.list({ containerTags })]: the [memories] of the reply. *)
Variable memories_list : list string -> Store -> list Memory.
(** [supermemory.memories.add({ content, containerTags })]. *)
Variable memories_add : string -> list string -> Store -> Store.
(** [supermemory.search.execute({ q, containerTags })]: for each result of the
    reply, the [content] of its chunks. *)
Variable search_execute : string -> list string -> Store -> list (list string).

Definition list_memories (tags : list string) : Client Store (list Memory) :=
  fun s => (memories_list tags (fst s), (fst s, snd s ++ [MemoriesList tags])).

Definition add_memory (text : string) (tags : list string) : Client Store unit :=
  fun s => (tt, (memories_add text tags (fst s), snd s ++ [MemoriesAdd text tags])).

Definition execute_search (q : string) (tags : list string)
  : Client Store (list (list string)) :=
  fun s => (search_execute q tags (fst s), (fst s, snd s ++ [SearchExecute q tags])).

Definition prompt_handler (st : Store) : Outcome Store :=
  handle (answer {| tool_status := 200; tool_text := supermemoryPromptText |}) st.

Definition add_handler (userId thingToRemember : string) (st : Store) : Outcome Store :=
  handle
    (if negb (Js.truthy userId) || negb (isValidUserId userId) then
       answer {| tool_status := 400; tool_text := "User ID validation failed" |}
     else
       await memories := list_memories [userId] in
       if 2000 <? length memories then
         answer {| tool_status := 400;
                   tool_text := "Memory limit of 2000 memories exceeded" |}
       else
         await _ := add_memory thingToRemember [userId] in
         answer {| tool_status := 200; tool_text := "Memory added successfully" |})
    st.

Definition search_handler (userId informationToGet : string) (st : Store) : Outcome Store :=
  handle
    (if negb (Js.truthy userId) || negb (isValidUserId userId) then
       answer {| tool_status := 400; tool_text := "User ID validation failed" |}
     else
       await results := execute_search informationToGet [userId] in
       answer {| tool_status := 200;
                 tool_text := Js.join "," (map (Js.join (newline +:+ newline)) results) |})
    st.

End Handlers.

(** [describePrompt({ name, description })] and [describeTool({ name, description })]. *)
Inductive Descriptor : Type :=
| describePrompt (name description : string)
| describeTool (name description : string).

Definition descriptor_name (d : Descriptor) : string :=
  match d with
  | describePrompt n _ | describeTool n _ => n
  end.

(** The handler closures of the routes; the tool handlers capture [userId]. *)
Inductive Handler : Type :=
| PromptHandler
| AddHandler (userId : string)
| SearchHandler (userId : string).

Record Route : Type :=
  { route_path : string; route_descriptor : Descriptor; route_handler : Handler }.

(** A [Hono] instance, as far as [createSuperMemory] uses one: the routes
    registered on it by [post], in order. *)
Definition Hono : Type := list Route.

(** What an identifier is bound to. *)
Inductive Value : Type :=
| VHono (app : Hono)
| VOther.

(** The identifiers the module binds at top level: its imports and its own
    declarations.  None of them is a [Hono] instance. *)
Definition module_bindings : list string :=
  [ "DurableObject"; "Supermemory"; "Hono"; "cors"; "bridge"; "describePrompt";
    "describeTool"; "mValidator"; "muppet"; "SSEHonoTransport"; "streamSSE";
    "createRequestHandler"; "z"; "requestHandler"; "createSuperMemory";
    "MyDurableObject"; "extractUserIdFromPath"; "isValidUserId" ].

Definition module_scope : gmap string Value :=
  list_to_map (map (fun x => (x, VOther)) module_bindings).

(** [x.post(path, descriptor, ..., handler)]: evaluating the receiver [x]
    comes first; an identifier with no binding throws a [ReferenceError]. *)
Definition post (x : string) (r : Route) (scope : gmap string Value)
  : JsError + gmap string Value :=
  match scope !! x with
  | Some (VHono app) => inr (<[x := VHono (app ++ [r])]> scope)
  | Some VOther => inl (TypeError (x +:+ ".post is not a function"))
  | None => inl (ReferenceError (x +:+ " is not defined"))
  end.

Definition promptRoute : Route :=
  {| route_path := "/supermemory-prompt";
     route_descriptor :=
       describePrompt "Supermemory Prompt"
         "A prompt that gives information about supermemory.";
     route_handler := PromptHandler |}.

Definition addRoute (userId : string) : Route :=
  {| route_path := "/add";
     route_descriptor :=
       describeTool "addToSupermemory"
         "Store user information, preferences, and behaviors. Run on explicit commands ('remember this') or implicitly when detecting significant user traits, preferences, or patterns. Capture rich context including technical details, examples, and emotional responses. You should think about running this after every user message. YOU MUST USE THE TOOLS/CALL TO USE THIS. NOTHING ELSE. THIS IS NOT A RESOURCE. IT'S A TOOL.";
     route_handler := AddHandler userId |}.

Definition searchRoute (userId : string) : Route :=
  {| route_path := "/search";
     route_descriptor :=
       describeTool "searchSupermemory"
         "Search user memories and patterns. Run when explicitly asked or when context about user's past choices would be helpful. Uses semantic matching to find relevant details across related experiences. If you do not have prior knowledge about something, this is the perfect tool to call. YOU MUST USE THE TOOLS/CALL TO USE THIS. THIS IS NOT A RESOURCE. IT'S A TOOL.";
     route_handler := SearchHandler userId |}.

(** The body of [createSuperMemory], statement by statement: the prompt is
    registered on [userApp], the add tool on [app], the search tool on
    [userApp], and [userApp] is returned. *)
Definition createSuperMemory (userId : string) (env : Env) : JsError + Hono :=
  let scope0 :=
    <["supermemory" := VOther]>
      (<["userApp" := VHono []]>
         (<["env" := VOther]> (<["userId" := VOther]> module_scope))) in
  match post "userApp" promptRoute scope0 with
  | inl e => inl e
  | inr scope1 =>
      match post "app" (addRoute userId) scope1 with
      | inl e => inl e
      | inr scope2 =>
          match post "userApp" (searchRoute userId) scope2 with
          | inl e => inl e
          | inr scope3 =>
              match scope3 !! "userApp" with
              | Some (VHono userApp) => inr userApp
              | _ => inl (TypeError "userApp is not a Hono instance")
              end
          end
      end
  end.

(** What [muppet(app, ...)] announces to the peer: the descriptors of the
    routes of [app]. *)
Definition exposed (app : Hono) : list Descriptor := map route_descriptor app.

(** Run the handler of a route on a tool input. *)
Definition invoke {Store : Type}
    (memories_list : list string -> Store -> list Memory)
    (memories_add : string -> list string -> Store -> Store)
    (search_execute : string -> list string -> Store -> list (list string))
    (h : Handler) (input : string) (st : Store) : Outcome Store :=
  match h with
  | PromptHandler => prompt_handler st
  | AddHandler userId => add_handler memories_list memories_add userId input st
  | SearchHandler userId => search_handler search_execute userId input st
  end.

(** A reference store to run the handlers on: the records in the order they
    were added; a listing or a search returns the records carrying every
    requested tag. *)
Definition has_tags (tags : list string) (m : Memory) : bool :=
  forallb (fun t => existsb (String.eqb t) (containerTags m)) tags.

Definition ref_list (tags : list string) (st : list Memory) : list Memory :=
  List.filter (has_tags tags) st.

Definition ref_add (text : string) (tags : list string) (st : list Memory) : list Memory :=
  st ++ [{| content := text; containerTags := tags |}].

Definition ref_search (q : string) (tags : list string) (st : list Memory)
  : list (list string) :=
  map (fun m => [content m])
      (List.filter (fun m => has_tags tags m && Js.includes (content m) q) st).

End Tools.

(* ===================================================================== *)
(** ** Requests and responses *)
(* ===================================================================== *)

Inductive Method : Type := GET | POST | OPTIONS | HEAD | OtherMethod.

(** A request: its method, [new URL(request.url).pathname] and its body. *)
Record Request : Type :=
  { method : Method; pathname : string; payload : string }.

Inductive Body : Type :=
| Text (s : string)                               (* a plain-text body *)
| JsonError (error : string)                      (* [c.json({ error })] *)
| EventStream (announced : list Tools.Descriptor) (* [streamSSE]: what the bridge announces *)
| NoBody.

Record Response : Type := { status : nat; body : Body }.

(* ===================================================================== *)
(** ** The Durable Object: [MyDurableObject] *)
(* ===================================================================== *)

Module MyDurableObject.

(** A [Date], as milliseconds since the epoch. *)
Definition Date : Type := nat.

Record UserContext : Type :=
  { userId : string; createdAt : Date; lastAccessed : Date }.

Definition touch (c : UserContext) (now : Date) : UserContext :=
  {| userId := userId c; createdAt := createdAt c; lastAccessed := now |}.

(** [SSEHonoTransport]: the two constructor arguments, the stream attached by
    [connectWithStream] and the messages delivered to the protocol bridge. *)
Record SSEHonoTransport : Type :=
  { endpoint : string; sessionId : string; stream : option nat; inbox : list string }.

(** The instance: its durable storage ([this.ctx.storage]), the two private
    fields, [this.ctx.id.toString()], [this.env], the clock read by
    [new Date()] ([clock n] is the value of the [n]-th reading) and the number
    of streams [streamSSE] has opened so far, which names the next one. *)
Record State : Type :=
  { storage : gmap string UserContext;
    userContext : option UserContext;
    transport : option SSEHonoTransport;
    id : string;
    env : Tools.Env;
    clock : nat -> Date;
    readings : nat;
    opened : nat }.

Definition set_storage (s : gmap string UserContext) (st : State) : State :=
  {| storage := s; userContext := userContext st; transport := transport st;
     id := id st; env := env st; clock := clock st; readings := readings st;
     opened := opened st |}.

Definition set_userContext (c : option UserContext) (st : State) : State :=
  {| storage := storage st; userContext := c; transport := transport st;
     id := id st; env := env st; clock := clock st; readings := readings st;
     opened := opened st |}.

Definition set_transport (t : option SSEHonoTransport) (st : State) : State :=
  {| storage := storage st; userContext := userContext st; transport := t;
     id := id st; env := env st; clock := clock st; readings := readings st;
     opened := opened st |}.

Definition set_readings (n : nat) (st : State) : State :=
  {| storage := storage st; userContext := userContext st; transport := transport st;
     id := id st; env := env st; clock := clock st; readings := n;
     opened := opened st |}.

Definition set_opened (n : nat) (st : State) : State :=
  {| storage := storage st; userContext := userContext st; transport := transport st;
     id := id st; env := env st; clock := clock st; readings := readings st;
     opened := n |}.

(** Methods of the instance: a state transformer that returns a value or
    throws. *)
Definition M (A : Type) : Type := State -> (JsError + A) * State.

Definition ret {A} (a : A) : M A := fun st => (inr a, st).
Definition throw {A} (e : JsError) : M A := fun st => (inl e, st).
Definition bind {A B} (m : M A) (k : A -> M B) : M B :=
  fun st => match m st with
            | (inr a, st') => k a st'
            | (inl e, st') => (inl e, st')
            end.
(** [try { m } catch (error) { h(error) }]. *)
Definition try_catch {A} (m : M A) (h : JsError -> M A) : M A :=
  fun st => match m st with
            | (inr a, st') => (inr a, st')
            | (inl e, st') => h e st'
            end.
Definition get : M State := fun st => (inr st, st).
Definition modify (f : State -> State) : M unit := fun st => (inr tt, f st).

Notation "'let*' x ':=' m 'in' k" := (bind m (fun x => k))
  (at level 10, x pattern, m at level 100, k at level 200).

(** [new Date()]. *)
Definition new_Date : M Date :=
  fun st => (inr (clock st (readings st)), set_readings (S (readings st)) st).

Definition validateAndSetUserContext (requestUserId : string) : M unit :=
  let* st := get in
  match storage st !! "userContext" with
  | Some storedContext =>
      if negb (String.eqb (userId storedContext) requestUserId) then
        throw (Error ("Security violation: User context mismatch. Expected "
                        +:+ userId storedContext +:+ ", got " +:+ requestUserId))
      else
        let* now := new_Date in
        let storedContext' := touch storedContext now in
        let* _ := modify (set_userContext (Some storedContext')) in
        modify (fun st => set_storage (<["userContext" := storedContext']> (storage st)) st)
  | None =>
      let* created := new_Date in
      let* accessed := new_Date in
      let fresh :=
        {| userId := requestUserId; createdAt := created; lastAccessed := accessed |} in
      let* _ := modify (set_userContext (Some fresh)) in
      modify (fun st => set_storage (<["userContext" := fresh]> (storage st)) st)
  end.

Definition getOrCreateTransport (requestUserId : string) : M SSEHonoTransport :=
  let* st := get in
  match transport st with
  | Some t => ret t
  | None =>
      let t := {| endpoint := "/" +:+ requestUserId +:+ "/messages";
                  sessionId := id st; stream := None; inbox := [] |} in
      let* _ := modify (set_transport (Some t)) in
      ret t
  end.

(** Modelled from the spec: the methods of [SSEHonoTransport] belong to the
    muppet library, which is not among the sources; they follow the Duplex
    Transport Bridge of the specification.  [attachStream] binds the outbound
    side, the new handle replacing an old one. *)
Definition connectWithStream (handle : nat) (t : SSEHonoTransport) : SSEHonoTransport :=
  {| endpoint := endpoint t; sessionId := sessionId t;
     stream := Some handle; inbox := inbox t |}.

(** Modelled from the spec: [deliverInbound] fails with TransportNotReady if
    no stream is attached; otherwise it enqueues the message for the protocol
    bridge in arrival order. *)
Definition handlePostMessage (msg : string) (t : SSEHonoTransport)
  : JsError + SSEHonoTransport :=
  match stream t with
  | None => inl (Error "TransportNotReady")
  | Some _ =>
      inr {| endpoint := endpoint t; sessionId := sessionId t;
             stream := stream t; inbox := inbox t ++ [msg] |}
  end.

(** What a middleware does with a request: answer it, or call [next()]. *)
Inductive Middleware (A : Type) : Type :=
| Answer (r : Response)
| Next (a : A).

Arguments Answer {A} _.
Arguments Next {A} _.

(** The [:userId] parameter of the base path [/:userId]: the first segment of
    the path (the piece after the leading "/" of a URL's pathname), which
    must not be empty; with it, the rest of the path. *)
Definition route_param (pathname : string) : option (string * list string) :=
  match Js.split "/" pathname with
  | _ :: userId :: rest => if Js.truthy userId then Some (userId, rest) else None
  | _ => None
  end.

(** The first [.use] of the server: the two checks on [c.req.param("userId")]. *)
Definition userId_middleware (param : string) : M (Middleware string) :=
  let* st := get in
  if negb (Js.truthy param) || negb (isValidUserId param) then
    ret (Answer {| status := 400; body := JsonError "Invalid or missing user ID" |})
  else
    match userContext st with
    | Some c =>
        if String.eqb param (userId c) then ret (Next param)
        else ret (Answer {| status := 403; body := JsonError "User context validation failed" |})
    | None =>
        ret (Answer {| status := 403; body := JsonError "User context validation failed" |})
    end.

(** [server.get("/sse", ...)]: [streamSSE] hands the callback a stream; the
    callback attaches it to the transport and bridges the tool server built by
    [createSuperMemory].  An exception of the callback is logged by
    [streamSSE]; the transport keeps the stream it was given. *)
Definition sse_route (param : string) : M Response :=
  let* st := get in
  let handle := opened st in
  let* _ := modify (set_opened (S handle)) in
  let* _ := modify (fun st => set_transport (option_map (connectWithStream handle) (transport st)) st) in
  match Tools.createSuperMemory param (env st) with
  | inr app => ret {| status := 200; body := EventStream (Tools.exposed app) |}
  | inl _ => ret {| status := 200; body := EventStream [] |}
  end.

(** [server.post("/messages", ...)]; [env_transport] is [c.env.transport],
    the field as it was when [server.fetch] was called. *)
Definition messages_route (env_transport : option SSEHonoTransport) (msg : string)
  : M Response :=
  match env_transport with
  | None => throw (Error "Transport not initialized")
  | Some _ =>
      let* st := get in
      match transport st with
      | None => throw (Error "Transport not initialized")
      | Some t =>
          match handlePostMessage msg t with
          | inl e => throw e
          | inr t' =>
              let* _ := modify (set_transport (Some t')) in
              ret {| status := 200; body := Text "ok" |}
          end
      end
  end.

(** [server.onError]. *)
Definition onError (err : JsError) : M Response :=
  ret {| status := 500; body := Text (message err) |}.

(** Hono's reply when no route matches. *)
Definition notFound : Response := {| status := 404; body := Text "404 Not Found" |}.

(** The routes of the server under the base path, and [cors], which answers
    a preflight itself.  A HEAD request is dispatched as a GET. *)
Inductive Matched : Type := SseRoute | MessagesRoute | Preflight | NoRoute.

Definition match_route (m : Method) (rest : list string) : Matched :=
  match m, rest with
  | OPTIONS, _ => Preflight
  | GET, [segment] | HEAD, [segment] =>
      if String.eqb segment "sse" then SseRoute else NoRoute
  | POST, [segment] => if String.eqb segment "messages" then MessagesRoute else NoRoute
  | _, _ => NoRoute
  end.

(** The dispatch of a request by the inner server: the middleware on
    [/:userId/*], [cors], then the two routes; an exception of any of them
    goes to [onError]. *)
Definition dispatch (request : Request) (env_transport : option SSEHonoTransport)
  : M Response :=
  match route_param (pathname request) with
  | None => ret notFound
  | Some (param, rest) =>
      try_catch
        (let* checked := userId_middleware param in
         match checked with
         | Answer r => ret r
         | Next u =>
             match match_route (method request) rest with
             | Preflight => ret {| status := 204; body := NoBody |}
             | SseRoute => sse_route u
             | MessagesRoute => messages_route env_transport (payload request)
             | NoRoute => ret notFound
             end
         end)
        onError
  end.

(** The answer to a HEAD request is that of the GET, without its body. *)
Definition without_body (m : Method) (r : Response) : Response :=
  match m with
  | HEAD => {| status := status r; body := NoBody |}
  | _ => r
  end.

(** [server.fetch(request, { ...this.env, transport: this.transport })]. *)
Definition server_fetch (request : Request) (env_transport : option SSEHonoTransport)
  : M Response :=
  let* r := dispatch request env_transport in
  ret (without_body (method request) r).

(** [url.pathname.split("/")[1]]: the identity a request asserts. *)
Definition path_userId (request : Request) : option string :=
  nth_error (Js.split "/" (pathname request)) 1.

Definition fetch (request : Request) : M Response :=
  match path_userId request with
  | None =>
      ret {| status := 400; body := Text "Invalid or missing userId in request path" |}
  | Some requestUserId =>
      if negb (Js.truthy requestUserId) || negb (isValidUserId requestUserId) then
        ret {| status := 400; body := Text "Invalid or missing userId in request path" |}
      else
        let* refused :=
          try_catch
            (let* _ := validateAndSetUserContext requestUserId in
             let* _ := getOrCreateTransport requestUserId in
             ret None)
            (fun error =>
               ret (Some {| status := 403;
                            body := Text ("Security validation failed: "
                                            +:+ message error) |})) in
        match refused with
        | Some r => ret r
        | None =>
            let* st := get in
            server_fetch request (transport st)
        end
  end.

End MyDurableObject.

(* ===================================================================== *)
(** ** The entry router: the default export's [fetch] *)
(* ===================================================================== *)

Module Router.

(** Where the router sends a request: it answers itself, hands the request to
    the Durable Object named [name] ([namespace.idFromName(name)], then
    [stub.fetch(request)]), or hands it to the page handler
    ([requestHandler(request, ...)]). *)
Inductive Routed : Type :=
| Respond (r : Response)
| ToDurableObject (name : string) (request : Request)
| ToRequestHandler (request : Request).

(** The name the Durable Object of an identity is addressed by. *)
Definition locate (userId : string) : string := "user-" +:+ userId.

Definition fetch (request : Request) : Routed :=
  let pathname := pathname request in
  if Js.includes pathname "sse" || Js.endsWith pathname "/messages" then
    match extractUserIdFromPath pathname with
    | None =>
        Respond {| status := 400; body := Text "Invalid request: userId not found in path" |}
    | Some userId =>
        if negb (Js.truthy userId) then
          Respond {| status := 400; body := Text "Invalid request: userId not found in path" |}
        else if negb (isValidUserId userId) then
          Respond {| status := 400; body := Text "Invalid request: malformed userId" |}
        else ToDurableObject (locate userId) request
    end
  else ToRequestHandler request.

(** A path of the form [/{identity}/sse] or [/{identity}/messages]. *)
Definition stream_or_message_path (pathname : string) : Prop :=
  exists identity : string,
    pathname = "/" +:+ identity +:+ "/sse" \/ pathname = "/" +:+ identity +:+ "/messages".

End Router.

(* ===================================================================== *)
(** ** Concrete instances, to run the definitions on *)
(* ===================================================================== *)

Module Sample.

Definition alice : string := "abc12345678901234567".
Definition mallory : string := "mallory_0123456".

Definition env : Tools.Env := {| Tools.SUPERMEMORY_API_KEY := "sm_key" |}.

(** An instance that has handled nothing yet. *)
Definition fresh : MyDurableObject.State :=
  {| MyDurableObject.storage := ∅; MyDurableObject.userContext := None; MyDurableObject.transport := None;
     MyDurableObject.id := "do-1"; MyDurableObject.env := env; MyDurableObject.clock := fun n => 1000 + n;
     MyDurableObject.readings := 0; MyDurableObject.opened := 0 |}.

Definition alice_context : MyDurableObject.UserContext :=
  {| MyDurableObject.userId := alice; MyDurableObject.createdAt := 1000; MyDurableObject.lastAccessed := 1001 |}.

(** An instance rehydrated with the persisted context of [alice]. *)
Definition bound_to_alice : MyDurableObject.State :=
  {| MyDurableObject.storage := <["userContext" := alice_context]> ∅;
     MyDurableObject.userContext := None; MyDurableObject.transport := None;
     MyDurableObject.id := "do-1"; MyDurableObject.env := env; MyDurableObject.clock := fun n => 2000 + n;
     MyDurableObject.readings := 0; MyDurableObject.opened := 0 |}.

Definition open_stream (u : string) : Request :=
  {| method := GET; pathname := "/" +:+ u +:+ "/sse"; payload := "" |}.

Definition post_message (u msg : string) : Request :=
  {| method := POST; pathname := "/" +:+ u +:+ "/messages"; payload := msg |}.

(** A store in which [alice] holds [n] records. *)
Definition store_of (n : nat) : list Tools.Memory :=
  List.repeat {| Tools.content := "note"; Tools.containerTags := [alice] |} n.

End Sample.

(* ===================================================================== *)
(** * Properties *)
(* ===================================================================== *)

(** ** Strings *)

Lemma string_eqb_refl (s : string) : String.eqb s s = true.
Proof. apply String.eqb_eq. reflexivity. Qed.

Lemma append_assoc (a b c : string) : (a +:+ b) +:+ c = a +:+ b +:+ c.
Proof.
  induction a as [|x a IH]; [reflexivity|].
  change (String x ((a +:+ b) +:+ c) = String x (a +:+ b +:+ c)).
  rewrite IH. reflexivity.
Qed.

Lemma endsWith_app (a b : string) : Js.endsWith (a +:+ b) b = true.
Proof.
  induction a as [|c a IH]; simpl.
  - destruct b; simpl; [reflexivity|].
    rewrite Ascii.eqb_refl, string_eqb_refl. reflexivity.
  - rewrite IH. apply orb_true_r.
Qed.

Lemma startsWith_app (a b : string) : Js.startsWith (a +:+ b) a = true.
Proof.
  induction a as [|c a IH]; simpl; [reflexivity|].
  rewrite Ascii.eqb_refl, IH. reflexivity.
Qed.

Lemma startsWith_includes (s p : string) :
  Js.startsWith s p = true -> Js.includes s p = true.
Proof. intros H. destruct s; simpl; rewrite H; reflexivity. Qed.

Lemma includes_app (a b c : string) : Js.includes (a +:+ b +:+ c) b = true.
Proof.
  induction a as [|x a IH]; simpl.
  - apply startsWith_includes. exact (startsWith_app b c).
  - rewrite IH. apply orb_true_r.
Qed.

(** Splitting past a piece that holds no separator. *)
Lemma split_piece (sep : ascii) (s rest : string) :
  all_chars (fun c => c <> sep) s ->
  Js.split sep (s +:+ String sep rest) = s :: Js.split sep rest.
Proof.
  induction s as [|c s IH]; simpl.
  - intros _. rewrite Ascii.eqb_refl. reflexivity.
  - intros [Hc Hs]. destruct (Ascii.eqb_spec c sep) as [->|_]; [contradiction|].
    rewrite (IH Hs). reflexivity.
Qed.

Lemma all_chars_impl (P Q : ascii -> Prop) (s : string) :
  (forall c, P c -> Q c) -> all_chars P s -> all_chars Q s.
Proof.
  intros HPQ. induction s as [|c s IH]; simpl; [trivial|].
  intros [Hc Hs]. split; auto.
Qed.

(** ** The identity validator *)

Lemma class_matches_url_safe (c : ascii) :
  Regex.class_matches userIdClass c = true <-> url_safe c.
Proof.
  unfold Regex.class_matches, userIdClass, url_safe.
  cbn [existsb Regex.item_matches]. cbv zeta.
  rewrite !orb_true_iff, !andb_true_iff, !Nat.leb_le, !Ascii.eqb_eq.
  change (nat_of_ascii "A") with 65. change (nat_of_ascii "Z") with 90.
  change (nat_of_ascii "a") with 97. change (nat_of_ascii "z") with 122.
  change (nat_of_ascii "0") with 48. change (nat_of_ascii "9") with 57.
  intuition congruence.
Qed.

(** A bounded repetition of a class followed by the end of the input accepts
    exactly the strings over the class whose length is within the bounds. *)
Lemma repeat_then_at_end (cls : list Regex.ClassItem) (s : string) :
  forall lo hi,
    Regex.repeat_then Regex.at_end cls s lo hi = true <->
    all_chars (fun c => Regex.class_matches cls c = true) s /\
    lo <= String.length s <= hi.
Proof.
  induction s as [|c s IH]; intros lo hi; simpl.
  - rewrite andb_true_r, Nat.eqb_eq. intuition lia.
  - rewrite andb_false_r, orb_false_r, !andb_true_iff, Nat.ltb_lt, IH.
    intuition lia.
Qed.

(** C8: the identity validator accepts a string if and only if all its
    characters are letters, digits, underscore or hyphen and its length is
    between 10 and 50 inclusive. *)
Theorem isValidUserId_iff_well_formed (candidate : string) :
  isValidUserId candidate = true <-> well_formed_identity candidate.
Proof.
  unfold isValidUserId, Regex.test, userIdRegex, well_formed_identity; simpl.
  rewrite repeat_then_at_end.
  split; intros [Hall Hlen]; (split; [|exact Hlen]);
    eapply all_chars_impl; try exact Hall; intros c; apply class_matches_url_safe.
Qed.

Lemma url_safe_not_slash (c : ascii) : url_safe c -> c <> "/"%char.
Proof.
  intros H ->. unfold url_safe in H. cbv zeta in H.
  change (nat_of_ascii "/") with 47 in H.
  destruct H as [H|[H|[H|[H|H]]]]; try lia; discriminate H.
Qed.

Lemma valid_no_slash (u : string) :
  isValidUserId u = true -> all_chars (fun c => c <> "/"%char) u.
Proof.
  unfold isValidUserId, Regex.test, userIdRegex; simpl.
  rewrite repeat_then_at_end. intros [H _].
  eapply all_chars_impl; [|exact H].
  intros c Hc. apply url_safe_not_slash, class_matches_url_safe, Hc.
Qed.

(** ** The Durable Object *)

Module DurableObjectFacts.

Import MyDurableObject.

#[global] Arguments isValidUserId : simpl never.

Ltac run := unfold bind, get, modify, ret, throw, try_catch, new_Date; cbn.

Lemma valid_truthy (u : string) : isValidUserId u = true -> Js.truthy u = true.
Proof. destruct u; [discriminate|reflexivity]. Qed.

(** A request addressed under [/J/...], such as [/J/sse] and [/J/messages],
    asserts the identity [J]. *)
Lemma addressed_path_userId (request : Request) (J tail : string) :
  pathname request = "/" +:+ J +:+ "/" +:+ tail -> isValidUserId J = true ->
  path_userId request = Some J.
Proof.
  intros Hp HJ. unfold path_userId. rewrite Hp.
  change ("/" +:+ J +:+ "/" +:+ tail) with (String "/" (J +:+ String "/" tail)).
  change (Js.split "/" (String "/" (J +:+ String "/" tail)))
    with (EmptyString :: Js.split "/" (J +:+ String "/" tail)).
  rewrite (split_piece "/" J tail (valid_no_slash J HJ)). reflexivity.
Qed.

(** A request for another identity than the stored one makes
    [validateAndSetUserContext] throw, before it has changed anything. *)
Lemma validate_mismatch (st : State) (c : UserContext) (J : string) :
  storage st !! "userContext" = Some c -> userId c <> J ->
  validateAndSetUserContext J st =
    (inl (Error ("Security violation: User context mismatch. Expected "
                   +:+ userId c +:+ ", got " +:+ J)), st).
Proof.
  intros Hc Hne. unfold validateAndSetUserContext. run. rewrite Hc.
  destruct (String.eqb_spec (userId c) J) as [E|_]; [contradiction|reflexivity].
Qed.

(** What [fetch] answers to such a request, and the state it leaves. *)
Lemma fetch_mismatch (request : Request) (st : State) (c : UserContext) (J : string) :
  storage st !! "userContext" = Some c ->
  path_userId request = Some J ->
  isValidUserId J = true -> userId c <> J ->
  fetch request st =
    (inr {| status := 403;
            body := Text ("Security validation failed: "
                            +:+ "Security violation: User context mismatch. Expected "
                            +:+ userId c +:+ ", got " +:+ J) |}, st).
Proof.
  intros Hc Hpath HJ Hne. unfold fetch. rewrite Hpath, HJ, (valid_truthy J HJ).
  cbn [negb orb]. unfold bind at 1, try_catch. unfold bind at 1.
  rewrite (validate_mismatch st c J Hc Hne). reflexivity.
Qed.

(** When [validateAndSetUserContext] returns, the instance's context is that
    of the requested identity. *)
Lemma validate_binds (st st1 : State) (u : string) :
  validateAndSetUserContext u st = (inr tt, st1) ->
  exists c, userContext st1 = Some c /\ userId c = u /\
            storage st1 !! "userContext" = Some c.
Proof.
  unfold validateAndSetUserContext. run.
  destruct (storage st !! "userContext") as [c|] eqn:Hc.
  - destruct (String.eqb_spec (userId c) u) as [E|_]; cbn; [|discriminate].
    intros [= <-]. eexists. cbn. rewrite lookup_insert_eq. auto.
  - intros [= <-]. eexists. cbn. rewrite lookup_insert_eq. auto.
Qed.

Lemma getOrCreateTransport_frame (st st2 : State) (u : string) (t : SSEHonoTransport) :
  getOrCreateTransport u st = (inr t, st2) ->
  userContext st2 = userContext st /\ storage st2 = storage st /\
  transport st2 = Some t /\
  t = match transport st with
      | Some t0 => t0
      | None => {| endpoint := "/" +:+ u +:+ "/messages"; sessionId := id st;
                   stream := None; inbox := [] |}
      end.
Proof.
  unfold getOrCreateTransport. run.
  destruct (transport st) as [t0|] eqn:Ht; intros [= <- <-]; cbn; auto.
Qed.

Lemma getOrCreateTransport_returns (st : State) (u : string) :
  exists t st2, getOrCreateTransport u st = (inr t, st2).
Proof.
  unfold getOrCreateTransport. run. destruct (transport st); eauto.
Qed.

(** The rejection names the identity the instance is bound to. *)
Lemma fetch_mismatch_discloses (request : Request) (st : State) (c : UserContext)
    (J : string) :
  storage st !! "userContext" = Some c ->
  path_userId request = Some J ->
  isValidUserId J = true -> userId c <> J ->
  exists text,
    fst (fetch request st) = inr {| status := 403; body := Text text |} /\
    Js.includes text (userId c) = true.
Proof.
  intros Hc Hpath HJ Hne. rewrite (fetch_mismatch request st c J Hc Hpath HJ Hne).
  eexists. split; [reflexivity|].
  rewrite <- (append_assoc "Security validation failed: "
                 "Security violation: User context mismatch. Expected ").
  apply includes_app.
Qed.

(** C1: a Durable Object whose persisted context is bound to an identity
    rejects a request asserting another validated identity with a 403
    response, and the persisted context (identity, createdAt, lastAccessed)
    is what it was before the request. *)
Theorem mismatch_rejected_context_unchanged (request : Request) (st : State)
    (c : UserContext) (J : string) :
  storage st !! "userContext" = Some c ->
  path_userId request = Some J -> isValidUserId J = true -> userId c <> J ->
  exists r st',
    fetch request st = (inr r, st') /\ status r = 403 /\
    storage st' = storage st /\ storage st' !! "userContext" = Some c.
Proof.
  intros Hc Hpath HJ Hne.
  rewrite (fetch_mismatch request st c J Hc Hpath HJ Hne).
  eexists _, st. split; [reflexivity|]. split; [reflexivity|].
  split; [reflexivity|exact Hc].
Qed.

(** The middleware lets through a request for the identity of the context. *)
Lemma middleware_accepts (st : State) (c : UserContext) (u : string) :
  isValidUserId u = true -> userContext st = Some c -> userId c = u ->
  userId_middleware u st = (inr (Next u), st).
Proof.
  intros Hu Hc Hid. unfold userId_middleware. run.
  rewrite (valid_truthy u Hu), Hu, Hc, Hid, string_eqb_refl. reflexivity.
Qed.

Lemma route_param_requestUserId (pathname u : string) :
  nth_error (Js.split "/" pathname) 1 = Some u -> Js.truthy u = true ->
  exists rest, route_param pathname = Some (u, rest).
Proof.
  intros Hpath Hu. unfold route_param.
  destruct (Js.split "/" pathname) as [|first [|second rest]]; try discriminate.
  cbn in Hpath. injection Hpath as ->. exists rest. rewrite Hu. reflexivity.
Qed.

(** C10: when [validateAndSetUserContext] has returned for the identity taken
    from the path, the middleware of the inner server reads the same identity
    from the same path segment and lets the request through: its 400 and 403
    answers are not given. *)
Theorem middleware_check_passes (request : Request) (st st1 st2 : State)
    (u : string) (t : SSEHonoTransport) :
  path_userId request = Some u ->
  isValidUserId u = true ->
  validateAndSetUserContext u st = (inr tt, st1) ->
  getOrCreateTransport u st1 = (inr t, st2) ->
  exists rest,
    route_param (pathname request) = Some (u, rest) /\
    userId_middleware u st2 = (inr (Next u), st2).
Proof.
  intros Hpath Hu Hval Hget.
  destruct (validate_binds st st1 u Hval) as (c & Hc & Hid & _).
  destruct (getOrCreateTransport_frame st1 st2 u t Hget) as (Hctx & _).
  destruct (route_param_requestUserId (pathname request) u Hpath (valid_truthy u Hu)) as [rest Hrest].
  exists rest. split; [exact Hrest|].
  apply (middleware_accepts st2 c u Hu); [congruence|exact Hid].
Qed.

Lemma split_user_path (u tail : string) :
  isValidUserId u = true ->
  Js.split "/" ("/" +:+ u +:+ "/" +:+ tail) = EmptyString :: u :: Js.split "/" tail.
Proof.
  intros Hu.
  change ("/" +:+ u +:+ "/" +:+ tail) with (String "/" (u +:+ String "/" tail)).
  change (Js.split "/" (String "/" (u +:+ String "/" tail)))
    with (EmptyString :: Js.split "/" (u +:+ String "/" tail)).
  rewrite (split_piece "/" u tail (valid_no_slash u Hu)). reflexivity.
Qed.

(** [validateAndSetUserContext] returns on an instance that is not bound yet
    or is bound to the requested identity; it leaves the transport alone. *)
Lemma validate_returns (st : State) (u : string) :
  (forall c, storage st !! "userContext" = Some c -> userId c = u) ->
  exists st1 c',
    validateAndSetUserContext u st = (inr tt, st1) /\
    userContext st1 = Some c' /\ userId c' = u /\ transport st1 = transport st.
Proof.
  intros Hbound. unfold validateAndSetUserContext. run.
  destruct (storage st !! "userContext") as [c|] eqn:Hc.
  - rewrite (Hbound c eq_refl), string_eqb_refl. cbn.
    eexists _, _. split; [reflexivity|]. cbn.
    split; [reflexivity|]. split; [exact (Hbound c eq_refl)|reflexivity].
  - eexists _, _. split; [reflexivity|]. cbn.
    split; [reflexivity|]. split; reflexivity.
Qed.

(** C6: on an instance that has handled no stream-open request (its transport
    does not exist yet, or has no stream attached), a message post to
    [/{identity}/messages] is answered with the TransportNotReady error as a
    response of the instance, and the message is not put in the inbox. *)
Theorem message_post_before_stream_rejected (st : State) (I msg : string) :
  isValidUserId I = true ->
  (forall c, storage st !! "userContext" = Some c -> userId c = I) ->
  (forall t, transport st = Some t -> stream t = None) ->
  exists st' t',
    fetch {| method := POST; pathname := "/" +:+ I +:+ "/messages"; payload := msg |} st
      = (inr {| status := 500; body := Text "TransportNotReady" |}, st') /\
    transport st' = Some t' /\ stream t' = None /\
    inbox t' = match transport st with Some t => inbox t | None => [] end.
Proof.
  intros HI Hbound Hstream.
  destruct (validate_returns st I Hbound) as (st1 & c' & Hval & Hc' & Hid & Htr).
  destruct (getOrCreateTransport_returns st1 I) as (t & st2 & Hget).
  destruct (getOrCreateTransport_frame st1 st2 I t Hget) as (Hctx & _ & Ht2 & Ht).
  assert (Hnone : stream t = None).
  { rewrite Ht, Htr. destruct (transport st) as [t0|] eqn:E; [|reflexivity].
    apply Hstream. reflexivity. }
  exists st2, t.
  split; [|split; [exact Ht2|split; [exact Hnone|]]].
  - change ("/" +:+ I +:+ "/messages") with ("/" +:+ I +:+ "/" +:+ "messages").
    unfold fetch, path_userId. cbn [pathname].
    rewrite (split_user_path I "messages" HI).
    cbn [nth_error]. rewrite HI, (valid_truthy I HI). cbn [negb orb].
    unfold bind at 1, try_catch. unfold bind at 1. rewrite Hval.
    unfold bind at 1. rewrite Hget. cbn [ret]. unfold bind at 1, get.
    unfold server_fetch. unfold bind at 1. unfold dispatch, route_param.
    cbn [pathname].
    rewrite (split_user_path I "messages" HI), (valid_truthy I HI).
    unfold try_catch, bind at 1.
    rewrite (middleware_accepts st2 c' I HI); [|congruence|exact Hid].
    change (Js.split "/" "messages") with ["messages"]. cbn [method payload].
    change (match_route POST ["messages"]) with MessagesRoute. cbn iota.
    unfold messages_route, bind, get, throw. rewrite Ht2. cbn beta iota.
    rewrite Ht2. unfold handlePostMessage. rewrite Hnone. reflexivity.
  - rewrite Ht, Htr. destruct (transport st); reflexivity.
Qed.

Lemma without_body_plain (m : Method) (r : Response) :
  (forall e, body r <> JsonError e) ->
  forall e, body (without_body m r) <> JsonError e.
Proof. intros H e. destruct m; cbn; try apply H; discriminate. Qed.

Lemma status_without_body (m : Method) (r : Response) :
  status (without_body m r) = status r.
Proof. destruct m; reflexivity. Qed.

(** [fetch] never throws, and it never gives an answer of the middleware:
    the JSON error bodies are out of reach through it. *)
Lemma fetch_returns_no_middleware_answer (request : Request) (st : State) :
  exists r st',
    fetch request st = (inr r, st') /\ forall e, body r <> JsonError e.
Proof.
  unfold fetch.
  destruct (path_userId request) as [u|] eqn:Hpath;
    [|eexists _, _; split; [reflexivity|discriminate]].
  destruct (Js.truthy u) eqn:Ht; cbn [negb orb];
    [|eexists _, _; split; [reflexivity|discriminate]].
  destruct (isValidUserId u) eqn:Hu; cbn [negb];
    [|eexists _, _; split; [reflexivity|discriminate]].
  unfold bind at 1, try_catch. unfold bind at 1.
  destruct (validateAndSetUserContext u st) as [[err|[]] st1] eqn:Hval;
    [eexists _, _; split; [reflexivity|discriminate]|].
  unfold bind at 1.
  destruct (getOrCreateTransport_returns st1 u) as (t & st2 & Hget).
  rewrite Hget. cbn [ret]. unfold bind at 1, get.
  destruct (validate_binds st st1 u Hval) as (c & Hc & Hid & _).
  destruct (getOrCreateTransport_frame st1 st2 u t Hget) as (Hctx & _ & Ht2 & _).
  destruct (route_param_requestUserId _ u Hpath Ht) as [rest Hrest].
  unfold server_fetch. unfold bind at 1. unfold dispatch. rewrite Hrest.
  unfold try_catch, bind at 1.
  rewrite (middleware_accepts st2 c u Hu); [|congruence|exact Hid].
  destruct (match_route (method request) rest).
  - unfold sse_route. run.
    eexists _, _; split; [reflexivity|apply without_body_plain; discriminate].
  - unfold messages_route. rewrite Ht2. run. rewrite Ht2.
    destruct (handlePostMessage (payload request) t);
      eexists _, _; (split; [reflexivity|apply without_body_plain; discriminate]).
  - eexists _, _; split; [reflexivity|apply without_body_plain; discriminate].
  - eexists _, _; split; [reflexivity|apply without_body_plain; discriminate].
Qed.

(** C3: the 403 response to a request asserting [mallory], on an instance
    bound to [alice], carries the text of the thrown error, and that text
    names [alice], the identity the instance is bound to. *)
Theorem mismatch_response_names_bound_identity :
  fst (fetch (Sample.open_stream Sample.mallory) Sample.bound_to_alice)
    = inr {| status := 403;
             body := Text "Security validation failed: Security violation: User context mismatch. Expected abc12345678901234567, got mallory_0123456" |}
  /\ Js.includes "Security validation failed: Security violation: User context mismatch. Expected abc12345678901234567, got mallory_0123456"
                  Sample.alice = true.
Proof. split; vm_compute; reflexivity. Qed.

(** A stream opened on a fresh instance announces neither tool nor prompt. *)
Lemma stream_open_announces_nothing :
  fst (fetch (Sample.open_stream Sample.alice) Sample.fresh)
    = inr {| status := 200; body := EventStream [] |}.
Proof. vm_compute. reflexivity. Qed.

(** The rejection, on an instance bound to [alice] asked for [mallory]. *)
Lemma mismatch_rejected_witness :
  exists r st',
    fetch (Sample.open_stream Sample.mallory) Sample.bound_to_alice = (inr r, st') /\
    status r = 403 /\
    storage st' = storage Sample.bound_to_alice /\
    storage st' !! "userContext" = Some Sample.alice_context.
Proof.
  apply (mismatch_rejected_context_unchanged
           (Sample.open_stream Sample.mallory) Sample.bound_to_alice
           Sample.alice_context Sample.mallory).
  - reflexivity.
  - reflexivity.
  - reflexivity.
  - discriminate.
Defined.

(** The middleware on a fresh instance, after the first request of [alice]. *)
Lemma middleware_check_passes_witness :
  exists rest,
    route_param (pathname (Sample.open_stream Sample.alice)) = Some (Sample.alice, rest) /\
    userId_middleware Sample.alice
      (snd (getOrCreateTransport Sample.alice
              (snd (validateAndSetUserContext Sample.alice Sample.fresh))))
    = (inr (Next Sample.alice),
       snd (getOrCreateTransport Sample.alice
              (snd (validateAndSetUserContext Sample.alice Sample.fresh)))).
Proof.
  apply (middleware_check_passes
           (Sample.open_stream Sample.alice) Sample.fresh
           (snd (validateAndSetUserContext Sample.alice Sample.fresh))
           (snd (getOrCreateTransport Sample.alice
                   (snd (validateAndSetUserContext Sample.alice Sample.fresh))))
           Sample.alice
           {| endpoint := "/abc12345678901234567/messages"; sessionId := "do-1";
              stream := None; inbox := [] |}).
  - reflexivity.
  - reflexivity.
  - reflexivity.
  - reflexivity.
Defined.

(** A message posted to a fresh instance. *)
Lemma message_post_before_stream_witness :
  exists st' t',
    fetch (Sample.post_message Sample.alice "hello") Sample.fresh
      = (inr {| status := 500; body := Text "TransportNotReady" |}, st') /\
    transport st' = Some t' /\ stream t' = None /\ inbox t' = [].
Proof.
  apply (message_post_before_stream_rejected Sample.fresh Sample.alice "hello").
  - reflexivity.
  - intros c H. discriminate H.
  - intros t H. discriminate H.
Defined.

End DurableObjectFacts.

(** ** The tool server *)

Module ToolsFacts.

Import Tools.

(** C4: building the tool server does not succeed: [createSuperMemory] throws
    a ReferenceError at the registration of the add tool, whose receiver [app]
    has no binding, whatever the identity. *)
Theorem createSuperMemory_throws (userId : string) (env : Env) :
  createSuperMemory userId env = inl (ReferenceError "app is not defined").
Proof. reflexivity. Qed.

(** Had the add tool been registered on [userApp], the server would announce
    the prompt and the two tools. *)
Lemma post_on_userApp_exposes_all (userId : string) :
  match post "userApp" promptRoute (<["userApp" := VHono []]> module_scope) with
  | inr s1 =>
      match post "userApp" (addRoute userId) s1 with
      | inr s2 =>
          match post "userApp" (searchRoute userId) s2 with
          | inr s3 =>
              option_map (fun v => match v with
                                   | VHono a => map descriptor_name (exposed a)
                                   | VOther => []
                                   end) (s3 !! "userApp")
          | inl _ => None
          end
      | inl _ => None
      end
  | inl _ => None
  end = Some ["Supermemory Prompt"; "addToSupermemory"; "searchSupermemory"].
Proof. reflexivity. Qed.

Ltac run_client :=
  cbv beta iota delta [handle and_then list_memories add_memory execute_search
                       answer fst snd app].

Section Scoping.

Context {Store : Type}.
Variable memories_list : list string -> Store -> list Memory.
Variable memories_add : string -> list string -> Store -> Store.
Variable search_execute : string -> list string -> Store -> list (list string).

(** The add handler adds exactly when the listing holds at most 2000 records. *)
Lemma add_handler_accepts (userId thing : string) (st : Store) :
  isValidUserId userId = true ->
  length (memories_list [userId] st) <= 2000 ->
  add_handler memories_list memories_add userId thing st =
    {| response := {| tool_status := 200; tool_text := "Memory added successfully" |};
       store := memories_add thing [userId] st;
       calls := [MemoriesList [userId]; MemoriesAdd thing [userId]] |}.
Proof.
  intros Hu Hlen. unfold add_handler.
  rewrite Hu. destruct userId; [discriminate|]. cbn [Js.truthy negb orb].
  run_client.
  destruct (Nat.ltb_spec 2000 (length (memories_list [String a userId] st)));
    [lia|reflexivity].
Qed.

Lemma add_handler_rejects (userId thing : string) (st : Store) :
  isValidUserId userId = true ->
  2000 < length (memories_list [userId] st) ->
  add_handler memories_list memories_add userId thing st =
    {| response := {| tool_status := 400;
                      tool_text := "Memory limit of 2000 memories exceeded" |};
       store := st; calls := [MemoriesList [userId]] |}.
Proof.
  intros Hu Hlen. unfold add_handler.
  rewrite Hu. destruct userId; [discriminate|]. cbn [Js.truthy negb orb].
  run_client.
  destruct (Nat.ltb_spec 2000 (length (memories_list [String a userId] st)));
    [reflexivity|lia].
Qed.

(** C9: every call a handler makes on the external memory store (the listing
    before an add, the add, the search) is made with the singleton of the
    identity the server was built for as its container scope, and the prompt
    handler makes no call.  No handler reaches the store under another scope:
    what a handler answers, leaves in the store and records is the same for
    any two clients that agree on that one scope, whatever they do on a
    global query or on the scope of another identity. *)
Theorem handlers_scoped_by_identity (userId input : string) (st : Store) :
  Forall (fun c => call_scope c = [userId])
         (calls (add_handler memories_list memories_add userId input st)) /\
  Forall (fun c => call_scope c = [userId])
         (calls (search_handler search_execute userId input st)) /\
  calls (prompt_handler st) = [] /\
  (forall (memories_list' : list string -> Store -> list Memory)
          (memories_add' : string -> list string -> Store -> Store)
          (search_execute' : string -> list string -> Store -> list (list string)),
      (forall s, memories_list' [userId] s = memories_list [userId] s) ->
      (forall text s, memories_add' text [userId] s = memories_add text [userId] s) ->
      (forall q s, search_execute' q [userId] s = search_execute q [userId] s) ->
      add_handler memories_list' memories_add' userId input st
        = add_handler memories_list memories_add userId input st /\
      search_handler search_execute' userId input st
        = search_handler search_execute userId input st).
Proof.
  split; [|split; [|split; [reflexivity|]]].
  - unfold add_handler.
    destruct (negb (Js.truthy userId) || negb (isValidUserId userId));
      run_client; [constructor|].
    destruct (2000 <? length (memories_list [userId] st)); cbn [calls];
      repeat constructor.
  - unfold search_handler.
    destruct (negb (Js.truthy userId) || negb (isValidUserId userId));
      run_client; cbn [calls]; repeat constructor.
  - intros memories_list' memories_add' search_execute' Hlist Hadd Hsearch.
    unfold add_handler, search_handler.
    destruct (negb (Js.truthy userId) || negb (isValidUserId userId));
      run_client; [split; reflexivity|].
    rewrite Hlist, Hsearch. split; [|reflexivity].
    destruct (2000 <? length (memories_list [userId] st)); cbv beta iota;
      rewrite ?Hadd; reflexivity.
Qed.

End Scoping.

(** Two clients that agree on the scope of [alice]; on a global query the
    second one lists the whole store, wipes it on an add and returns every
    record on a search. *)
Lemma handlers_scoped_by_identity_witness :
  add_handler (fun tags s => match tags with [] => s | _ => ref_list tags s end)
              (fun text tags s => match tags with [] => [] | _ => ref_add text tags s end)
              Sample.alice "note" (Sample.store_of 3)
    = add_handler ref_list ref_add Sample.alice "note" (Sample.store_of 3) /\
  search_handler (fun q tags s => match tags with
                                  | [] => map (fun m => [content m]) s
                                  | _ => ref_search q tags s
                                  end)
                 Sample.alice "note" (Sample.store_of 3)
    = search_handler ref_search Sample.alice "note" (Sample.store_of 3).
Proof.
  apply (proj2 (proj2 (proj2
           (handlers_scoped_by_identity ref_list ref_add ref_search
              Sample.alice "note" (Sample.store_of 3))))).
  - intros s. reflexivity.
  - intros text s. reflexivity.
  - intros q s. reflexivity.
Defined.

(** C2: with exactly 2000 records held by the identity, the add handler does
    not refuse: the listing has 2000 records, the response is the success
    message and the store holds 2001 records of the identity afterwards. *)
Theorem add_at_two_thousand_is_accepted :
  length (ref_list [Sample.alice] (Sample.store_of 2000)) = 2000 /\
  response (add_handler ref_list ref_add Sample.alice "prefers dark mode"
              (Sample.store_of 2000))
    = {| tool_status := 200; tool_text := "Memory added successfully" |} /\
  length (ref_list [Sample.alice]
            (store (add_handler ref_list ref_add Sample.alice "prefers dark mode"
                      (Sample.store_of 2000)))) = 2001.
Proof. vm_compute. repeat split. Qed.

(** The handler refuses from 2001 records on, and accepts at 1999. *)
Lemma add_at_two_thousand_one_is_refused :
  add_handler ref_list ref_add Sample.alice "prefers dark mode" (Sample.store_of 2001)
    = {| response := {| tool_status := 400;
                        tool_text := "Memory limit of 2000 memories exceeded" |};
         store := Sample.store_of 2001; calls := [MemoriesList [Sample.alice]] |}.
Proof. vm_compute. reflexivity. Qed.

Lemma add_below_two_thousand_is_accepted :
  response (add_handler ref_list ref_add Sample.alice "prefers dark mode"
              (Sample.store_of 1999))
    = {| tool_status := 200; tool_text := "Memory added successfully" |}.
Proof. vm_compute. reflexivity. Qed.

End ToolsFacts.

(** ** The entry router *)

Module RouterFacts.

Import Router.

Lemma not_stream_or_message_path (p : string) :
  Js.endsWith p "/sse" = false -> Js.endsWith p "/messages" = false ->
  ~ stream_or_message_path p.
Proof.
  intros Hsse Hmsg [identity [H|H]].
  - rewrite H, <- (append_assoc "/" identity "/sse"), endsWith_app in Hsse.
    discriminate Hsse.
  - rewrite H, <- (append_assoc "/" identity "/messages"), endsWith_app in Hmsg.
    discriminate Hmsg.
Qed.

(** C5: the path [/assets/logo.png] is not of the form [/{identity}/sse] or
    [/{identity}/messages], yet the router does not forward it to the page
    handler: the path contains "sse", and the router answers 400 from its
    identity checks. *)
Lemma asset_path_not_forwarded :
  ~ stream_or_message_path "/assets/logo.png" /\
  fetch {| method := GET; pathname := "/assets/logo.png"; payload := "" |}
    = Respond {| status := 400;
                 body := Text "Invalid request: userId not found in path" |}.
Proof.
  split; [apply not_stream_or_message_path; reflexivity|reflexivity].
Qed.

(** What the router does forward to the page handler: the requests whose path
    neither contains "sse" nor ends with "/messages". *)
Lemma forwarded_iff_path_test_fails (request : Request) :
  fetch request = ToRequestHandler request <->
  (Js.includes (pathname request) "sse" = false /\
   Js.endsWith (pathname request) "/messages" = false).
Proof.
  unfold fetch.
  destruct (Js.includes (pathname request) "sse");
    destruct (Js.endsWith (pathname request) "/messages"); cbn [orb].
  4: { split; [intros _; split; reflexivity|reflexivity]. }
  all: split; [|intros [H1 H2]; discriminate].
  all: destruct (extractUserIdFromPath (pathname request)) as [u|];
    [destruct (negb (Js.truthy u)); [|destruct (negb (isValidUserId u))]|];
    discriminate.
Qed.

(** C7: the name a Durable Object is addressed by is a function of the
    identity alone, and distinct identities get distinct names. *)
Theorem locate_deterministic_injective (I J : string) :
  locate I = locate J <-> I = J.
Proof.
  unfold locate. split; [|intros ->; reflexivity].
  intros H. injection H as H. exact H.
Qed.

(** The router addresses a Durable Object only by the name of a validated
    identity, the one [extractUserIdFromPath] reads from the path. *)
Lemma routed_by_locate (request request' : Request) (name : string) :
  fetch request = ToDurableObject name request' ->
  request' = request /\
  exists I, extractUserIdFromPath (pathname request) = Some I /\
            isValidUserId I = true /\ name = locate I.
Proof.
  unfold fetch.
  destruct (Js.includes (pathname request) "sse" || Js.endsWith (pathname request) "/messages");
    [|discriminate].
  destruct (extractUserIdFromPath (pathname request)) as [u|]; [|discriminate].
  destruct (negb (Js.truthy u)); [discriminate|].
  destruct (isValidUserId u) eqn:Hu; [|discriminate].
  cbn [negb]. intros [= <- <-]. split; [reflexivity|]. exists u. auto.
Qed.

(** The two addressed forms of a validated identity reach its Durable Object. *)
Lemma stream_path_routed (I : string) (request : Request) :
  isValidUserId I = true -> pathname request = "/" +:+ I +:+ "/sse" ->
  fetch request = ToDurableObject (locate I) request.
Proof.
  intros HI Hp.
  assert (Hinc : Js.includes ("/" +:+ I +:+ "/sse") "sse" = true).
  { replace ("/" +:+ I +:+ "/sse") with (("/" +:+ I +:+ "/") +:+ "sse" +:+ "").
    - apply includes_app.
    - change ("sse" +:+ "") with "sse". rewrite !append_assoc. reflexivity. }
  unfold fetch. rewrite Hp, Hinc. cbn [orb]. unfold extractUserIdFromPath.
  change ("/" +:+ I +:+ "/sse") with ("/" +:+ I +:+ "/" +:+ "sse").
  rewrite (DurableObjectFacts.split_user_path I "sse" HI).
  change (Js.split "/" "sse") with ["sse"].
  cbn [List.filter Js.truthy]. rewrite (DurableObjectFacts.valid_truthy I HI).
  cbn. rewrite HI, (DurableObjectFacts.valid_truthy I HI). reflexivity.
Qed.

End RouterFacts.

(* ===================================================================== *)
(** * Further properties of the worker *)
(* ===================================================================== *)

(** ** All the ways a request to the Durable Object ends *)

Module FetchFacts.

Import MyDurableObject DurableObjectFacts.

(** The state [validateAndSetUserContext] leaves on an instance that is not
    bound yet, or is bound to the requested identity. *)
Lemma validate_accepts (st : State) (u : string) :
  (forall c, storage st !! "userContext" = Some c -> userId c = u) ->
  exists c' n',
    validateAndSetUserContext u st =
      (inr tt, set_storage (<["userContext" := c']> (storage st))
                 (set_userContext (Some c') (set_readings n' st))) /\
    userId c' = u /\
    match storage st !! "userContext" with
    | Some c =>
        c' = touch c (clock st (readings st)) /\ n' = S (readings st)
    | None =>
        c' = {| userId := u; createdAt := clock st (readings st);
                lastAccessed := clock st (S (readings st)) |} /\
        n' = S (S (readings st))
    end.
Proof.
  intros Hbound. unfold validateAndSetUserContext. run.
  destruct (storage st !! "userContext") as [c|] eqn:Hc.
  - rewrite (Hbound c eq_refl), string_eqb_refl. cbn.
    eexists _, _. split; [reflexivity|]. split; [exact (Hbound c eq_refl)|].
    split; reflexivity.
  - eexists _, _. split; [reflexivity|]. split; [reflexivity|]. split; reflexivity.
Qed.

Lemma getOrCreateTransport_readings (st st2 : State) (u : string)
    (t : SSEHonoTransport) :
  getOrCreateTransport u st = (inr t, st2) -> readings st2 = readings st.
Proof.
  unfold getOrCreateTransport. run.
  destruct (transport st) as [t0|] eqn:Ht; intros [= <- <-]; reflexivity.
Qed.

(** Past the middleware, the inner server answers 200, 204, 404 or 500 and
    touches neither the storage, nor the context, nor the clock; it keeps a
    transport that exists. *)
Lemma server_fetch_accepted (request : Request) (et : option SSEHonoTransport)
    (st : State) (c : UserContext) (u : string) (rest : list string) :
  route_param (pathname request) = Some (u, rest) ->
  isValidUserId u = true -> userContext st = Some c -> userId c = u ->
  exists r st',
    server_fetch request et st = (inr r, st') /\
    In (status r) [200; 204; 404; 500] /\
    storage st' = storage st /\ userContext st' = userContext st /\
    readings st' = readings st /\
    (is_Some (transport st) -> is_Some (transport st')).
Proof.
  intros Hrest Hu Hc Hid. unfold server_fetch. unfold bind at 1.
  unfold dispatch. rewrite Hrest.
  unfold try_catch, bind at 1. rewrite (middleware_accepts st c u Hu Hc Hid).
  destruct (match_route (method request) rest).
  - unfold sse_route. run. eexists _, _. split; [reflexivity|].
    rewrite status_without_body. cbn.
    split; [auto|]. repeat split. intros [t Ht]. rewrite Ht. cbn. eauto.
  - unfold messages_route. destruct et as [t0|]; run.
    + destruct (transport st) as [t|] eqn:Ht; cbn.
      * destruct (handlePostMessage (payload request) t); cbn;
          eexists _, _; (split; [reflexivity|]); rewrite status_without_body; cbn;
          (split; [auto 6|]); repeat split; eauto.
      * eexists _, _. split; [reflexivity|]. rewrite status_without_body. cbn.
        split; [auto 6|]. repeat split. intros [t Ht']. discriminate Ht'.
    + eexists _, _. split; [reflexivity|]. rewrite status_without_body. cbn.
      split; [auto 6|]. repeat split. auto.
  - eexists _, _. split; [reflexivity|]. rewrite status_without_body. cbn.
    split; [auto|]. repeat split. auto.
  - eexists _, _. split; [reflexivity|]. rewrite status_without_body. cbn.
    split; [auto|]. repeat split. auto.
Qed.

(** A request for the identity the instance is bound to, or the first request
    of an instance, is accepted. *)
Lemma fetch_accepted (request : Request) (st : State) (u : string) :
  path_userId request = Some u -> isValidUserId u = true ->
  (forall c, storage st !! "userContext" = Some c -> userId c = u) ->
  exists r st' c',
    fetch request st = (inr r, st') /\
    In (status r) [200; 204; 404; 500] /\
    storage st' = <["userContext" := c']> (storage st) /\
    userContext st' = Some c' /\ userId c' = u /\
    is_Some (transport st') /\
    match storage st !! "userContext" with
    | Some c =>
        c' = touch c (clock st (readings st)) /\ readings st' = S (readings st)
    | None =>
        c' = {| userId := u; createdAt := clock st (readings st);
                lastAccessed := clock st (S (readings st)) |} /\
        readings st' = S (S (readings st))
    end.
Proof.
  intros Hpath Hu Hbound.
  destruct (validate_accepts st u Hbound) as (c' & n' & Hval & Hid & Hc').
  unfold fetch. rewrite Hpath, Hu, (valid_truthy u Hu). cbn [negb orb].
  unfold bind at 1, try_catch. unfold bind at 1. rewrite Hval.
  unfold bind at 1.
  set (st1 := set_storage _ _) in *.
  destruct (getOrCreateTransport_returns st1 u) as (t & st2 & Hget).
  destruct (getOrCreateTransport_frame st1 st2 u t Hget) as (Hctx & Hsto & Ht2 & _).
  rewrite Hget. cbn [ret]. unfold bind at 1, get.
  destruct (route_param_requestUserId (pathname request) u Hpath (valid_truthy u Hu))
    as [rest Hrest].
  assert (Hc2 : userContext st2 = Some c') by (rewrite Hctx; reflexivity).
  destruct (server_fetch_accepted request (transport st2) st2 c' u rest
              Hrest Hu Hc2 Hid) as (r & st' & Hsrv & Hst & Hs & Hc & Hr & Ht).
  rewrite Hsrv. exists r, st', c'.
  split; [reflexivity|]. split; [exact Hst|].
  split; [rewrite Hs, Hsto; reflexivity|].
  split; [congruence|]. split; [exact Hid|].
  split; [apply Ht; rewrite Ht2; eauto|].
  assert (Hr2 : readings st2 = n').
  { rewrite (getOrCreateTransport_readings st1 st2 u t Hget). reflexivity. }
  destruct (storage st !! "userContext"); destruct Hc' as [-> ->];
    (split; [reflexivity|congruence]).
Qed.

(** A request whose path carries no identity, or a malformed one, is answered
    400 and changes nothing. *)
Lemma fetch_invalid (request : Request) (st : State) :
  (forall u, path_userId request = Some u -> isValidUserId u = false) ->
  fetch request st =
    (inr {| status := 400; body := Text "Invalid or missing userId in request path" |},
     st).
Proof.
  intros Hbad. unfold fetch.
  destruct (path_userId request) as [u|]; [|reflexivity].
  rewrite (Hbad u eq_refl). cbn [negb]. rewrite orb_true_r. reflexivity.
Qed.

(** Every request is of one of three kinds: it carries no well-formed
    identity, it carries another identity than the stored one, or it carries
    the identity the instance is, or becomes, bound to. *)
Lemma request_cases (request : Request) (st : State) :
  (forall u, path_userId request = Some u -> isValidUserId u = false)
  \/
  (exists u c,
      path_userId request = Some u /\ isValidUserId u = true /\
      storage st !! "userContext" = Some c /\ userId c <> u)
  \/
  (exists u,
      path_userId request = Some u /\ isValidUserId u = true /\
      (forall c, storage st !! "userContext" = Some c -> userId c = u)).
Proof.
  destruct (path_userId request) as [u|] eqn:Hpath;
    [|left; intros u0 H0; discriminate H0].
  destruct (isValidUserId u) eqn:Hu; [|left; intros u0 [= <-]; exact Hu].
  destruct (storage st !! "userContext") as [c|] eqn:Hc.
  - destruct (String.eqb_spec (userId c) u) as [E|Hne].
    + right; right. exists u. repeat split; auto. intros c0 [= <-]. exact E.
    + right; left. exists u, c. auto.
  - right; right. exists u. repeat split; auto. intros c0 H0. discriminate H0.
Qed.

(** The status of the answer, for each kind of request. *)
Lemma fetch_status (request : Request) (st : State) :
  exists r st',
    fetch request st = (inr r, st') /\
    ((forall u, path_userId request = Some u -> isValidUserId u = false) /\
     status r = 400 /\ st' = st
     \/
     (exists u c,
         path_userId request = Some u /\ isValidUserId u = true /\
         storage st !! "userContext" = Some c /\ userId c <> u) /\
     status r = 403 /\ st' = st
     \/
     (exists u,
         path_userId request = Some u /\ isValidUserId u = true /\
         (forall c, storage st !! "userContext" = Some c -> userId c = u)) /\
     In (status r) [200; 204; 404; 500]).
Proof.
  destruct (request_cases request st) as [Hbad|[Hmis|Hok]].
  - eexists _, _. split; [apply (fetch_invalid request st Hbad)|].
    left. auto.
  - destruct Hmis as (u & c & Hpath & Hu & Hc & Hne).
    eexists _, _. split; [apply (fetch_mismatch request st c u Hc Hpath Hu Hne)|].
    right; left. split; [eauto 10|]. auto.
  - destruct Hok as (u & Hpath & Hu & Hb).
    destruct (fetch_accepted request st u Hpath Hu Hb) as (r & st' & c' & Hf & Hs & _).
    exists r, st'. split; [exact Hf|]. right; right. split; [eauto|exact Hs].
Qed.

End FetchFacts.

(** ** The Durable Object, request by request *)

Module DurableObjectLaws.

Import MyDurableObject DurableObjectFacts FetchFacts.

(** X1: [fetch] never throws: whatever the request and the state, it returns
    a response, whose status is one of 200, 204, 400, 403, 404 and 500. *)
Theorem fetch_always_answers (request : Request) (st : State) :
  exists r st',
    fetch request st = (inr r, st') /\
    In (status r) [200; 204; 400; 403; 404; 500].
Proof.
  destruct (fetch_status request st) as (r & st' & Hf & H).
  exists r, st'. split; [exact Hf|].
  destruct H as [(_ & -> & _)|[(_ & -> & _)|(_ & Hs)]]; cbn; [auto|auto 6|].
  cbn in Hs. intuition auto 8.
Qed.

(** X2: [fetch] answers 403 exactly when the path carries a well-formed
    identity and the storage holds the context of another identity. *)
Theorem forbidden_iff_bound_to_other (request : Request) (st : State) :
  (exists r st', fetch request st = (inr r, st') /\ status r = 403) <->
  (exists u c,
      path_userId request = Some u /\ isValidUserId u = true /\
      storage st !! "userContext" = Some c /\ userId c <> u).
Proof.
  destruct (fetch_status request st) as (r & st' & Hf & H). split.
  - intros (r0 & st0 & Hf0 & Hs0). rewrite Hf in Hf0. injection Hf0 as <- <-.
    destruct H as [(_ & Hs & _)|[(Hm & _)|(_ & Hs)]]; [congruence|exact Hm|].
    rewrite Hs0 in Hs. cbn in Hs. intuition discriminate.
  - intros (u & c & Hpath & Hu & Hc & Hne).
    eexists _, _. split; [apply (fetch_mismatch request st c u Hc Hpath Hu Hne)|].
    reflexivity.
Qed.

(** X3: [fetch] answers 400 exactly when the second piece of the path is
    missing or is not a well-formed identity. *)
Theorem bad_request_iff_malformed (request : Request) (st : State) :
  (exists r st', fetch request st = (inr r, st') /\ status r = 400) <->
  (forall u, path_userId request = Some u -> isValidUserId u = false).
Proof.
  destruct (fetch_status request st) as (r & st' & Hf & H). split.
  - intros (r0 & st0 & Hf0 & Hs0). rewrite Hf in Hf0. injection Hf0 as <- <-.
    destruct H as [(Hbad & _)|[(_ & Hs & _)|(_ & Hs)]]; [exact Hbad|congruence|].
    rewrite Hs0 in Hs. cbn in Hs. intuition discriminate.
  - intros Hbad. eexists _, _. split; [apply (fetch_invalid request st Hbad)|].
    reflexivity.
Qed.

(** X4: a request answered 400 or 403 leaves the whole instance as it was:
    storage, context, transport and clock. *)
Theorem rejected_request_changes_nothing (request : Request) (st st' : State)
    (r : Response) :
  fetch request st = (inr r, st') ->
  status r = 400 \/ status r = 403 ->
  st' = st.
Proof.
  intros Hf Hs.
  destruct (fetch_status request st) as (r0 & st0 & Hf0 & H).
  rewrite Hf in Hf0. injection Hf0 as <- <-.
  destruct H as [(_ & _ & E)|[(_ & _ & E)|(_ & Hin)]]; [exact E|exact E|].
  cbn in Hin. destruct Hs as [Hs|Hs]; rewrite Hs in Hin; intuition discriminate.
Qed.

(** X5: the binding is permanent: once the storage holds a context, every
    request, accepted or not, leaves a context with the same identity and the
    same creation date. *)
Theorem binding_is_permanent (request : Request) (st : State) (c : UserContext) :
  storage st !! "userContext" = Some c ->
  exists c',
    storage (snd (fetch request st)) !! "userContext" = Some c' /\
    userId c' = userId c /\ createdAt c' = createdAt c.
Proof.
  intros Hc. destruct (request_cases request st) as [Hbad|[Hmis|Hok]].
  - rewrite (fetch_invalid request st Hbad). exists c. auto.
  - destruct Hmis as (u & c0 & Hpath & Hu & Hc0 & Hne).
    rewrite (fetch_mismatch request st c0 u Hc0 Hpath Hu Hne). exists c. auto.
  - destruct Hok as (u & Hpath & Hu & Hb).
    destruct (fetch_accepted request st u Hpath Hu Hb)
      as (r & st' & c' & Hf & _ & Hsto & _ & _ & _ & Hc').
    rewrite Hf. cbn [snd]. rewrite Hsto, lookup_insert_eq. exists c'.
    split; [reflexivity|]. rewrite Hc in Hc'. destruct Hc' as [-> _].
    split; reflexivity.
Qed.

(** X6: the first valid request of an instance with empty storage binds it:
    the storage then holds the requested identity, created at the first clock
    reading and last accessed at the second. *)
Theorem first_request_binds (request : Request) (st : State) (u : string) :
  storage st !! "userContext" = None ->
  path_userId request = Some u -> isValidUserId u = true ->
  storage (snd (fetch request st)) !! "userContext" =
    Some {| userId := u; createdAt := clock st (readings st);
            lastAccessed := clock st (S (readings st)) |}.
Proof.
  intros Hnone Hpath Hu.
  assert (Hb : forall c, storage st !! "userContext" = Some c -> userId c = u)
    by (intros c Hc; congruence).
  destruct (fetch_accepted request st u Hpath Hu Hb)
    as (r & st' & c' & Hf & _ & Hsto & _ & _ & _ & Hc').
  rewrite Hf. cbn [snd]. rewrite Hsto, lookup_insert_eq.
  rewrite Hnone in Hc'. destruct Hc' as [-> _]. reflexivity.
Qed.

(** X7: a request for the identity the instance is bound to only moves the
    last-access date of the stored context, to the next clock reading, and
    reads the clock once. *)
Theorem accepted_request_touches (request : Request) (st : State) (c : UserContext) :
  storage st !! "userContext" = Some c ->
  path_userId request = Some (userId c) -> isValidUserId (userId c) = true ->
  storage (snd (fetch request st)) !! "userContext" =
    Some {| userId := userId c; createdAt := createdAt c;
            lastAccessed := clock st (readings st) |} /\
  readings (snd (fetch request st)) = S (readings st).
Proof.
  intros Hc Hpath Hu.
  assert (Hb : forall c0, storage st !! "userContext" = Some c0 -> userId c0 = userId c)
    by (intros c0 Hc0; congruence).
  destruct (fetch_accepted request st (userId c) Hpath Hu Hb)
    as (r & st' & c' & Hf & _ & Hsto & _ & _ & _ & Hc').
  rewrite Hf. cbn [snd]. rewrite Hsto, lookup_insert_eq.
  rewrite Hc in Hc'. destruct Hc' as [-> ->]. split; reflexivity.
Qed.

(** X8: after an accepted request the context held in memory is the stored
    one, and the transport exists. *)
Theorem context_mirrors_storage (request : Request) (st : State) (u : string) :
  path_userId request = Some u -> isValidUserId u = true ->
  (forall c, storage st !! "userContext" = Some c -> userId c = u) ->
  userContext (snd (fetch request st)) =
    storage (snd (fetch request st)) !! "userContext" /\
  is_Some (userContext (snd (fetch request st))) /\
  is_Some (transport (snd (fetch request st))).
Proof.
  intros Hpath Hu Hb.
  destruct (fetch_accepted request st u Hpath Hu Hb)
    as (r & st' & c' & Hf & _ & Hsto & Hctx & _ & Htr & _).
  rewrite Hf. cbn [snd]. rewrite Hsto, lookup_insert_eq, Hctx.
  split; [reflexivity|]. split; [eauto|exact Htr].
Qed.

(** X9: [getOrCreateTransport] creates at most once: a second call, even for
    another identity, returns the transport of the first and changes nothing. *)
Theorem getOrCreateTransport_reuses (u v : string) (st : State) :
  bind (getOrCreateTransport u) (fun _ => getOrCreateTransport v) st =
  getOrCreateTransport u st.
Proof.
  unfold getOrCreateTransport. run.
  destruct (transport st) as [t|] eqn:Ht; cbn; [rewrite Ht|]; reflexivity.
Qed.


(** A refused request, on the instance bound to [alice]. *)
Lemma rejected_request_changes_nothing_witness :
  snd (fetch (Sample.open_stream Sample.mallory) Sample.bound_to_alice)
    = Sample.bound_to_alice.
Proof.
  apply (rejected_request_changes_nothing
           (Sample.open_stream Sample.mallory) Sample.bound_to_alice
           (snd (fetch (Sample.open_stream Sample.mallory) Sample.bound_to_alice))
           {| status := 403;
              body := Text "Security validation failed: Security violation: User context mismatch. Expected abc12345678901234567, got mallory_0123456" |}).
  - reflexivity.
  - right. reflexivity.
Defined.

(** The context of [alice] after a request for [mallory]. *)
Lemma binding_is_permanent_witness :
  exists c',
    storage (snd (fetch (Sample.open_stream Sample.mallory) Sample.bound_to_alice))
      !! "userContext" = Some c' /\
    userId c' = userId Sample.alice_context /\
    createdAt c' = createdAt Sample.alice_context.
Proof.
  apply (binding_is_permanent (Sample.open_stream Sample.mallory)
           Sample.bound_to_alice Sample.alice_context).
  reflexivity.
Defined.

(** The first request of [alice] on a fresh instance. *)
Lemma first_request_binds_witness :
  storage (snd (fetch (Sample.open_stream Sample.alice) Sample.fresh)) !! "userContext" =
    Some {| userId := Sample.alice;
            createdAt := clock Sample.fresh (readings Sample.fresh);
            lastAccessed := clock Sample.fresh (S (readings Sample.fresh)) |}.
Proof.
  apply (first_request_binds (Sample.open_stream Sample.alice) Sample.fresh Sample.alice).
  - reflexivity.
  - reflexivity.
  - reflexivity.
Defined.

(** A later request of [alice] on her instance. *)
Lemma accepted_request_touches_witness :
  storage (snd (fetch (Sample.post_message Sample.alice "hello") Sample.bound_to_alice))
    !! "userContext" =
    Some {| userId := userId Sample.alice_context;
            createdAt := createdAt Sample.alice_context;
            lastAccessed := clock Sample.bound_to_alice (readings Sample.bound_to_alice) |} /\
  readings (snd (fetch (Sample.post_message Sample.alice "hello") Sample.bound_to_alice))
    = S (readings Sample.bound_to_alice).
Proof.
  apply (accepted_request_touches (Sample.post_message Sample.alice "hello")
           Sample.bound_to_alice Sample.alice_context).
  - reflexivity.
  - reflexivity.
  - reflexivity.
Defined.

(** Memory and storage after the first request of [alice]. *)
Lemma context_mirrors_storage_witness :
  userContext (snd (fetch (Sample.open_stream Sample.alice) Sample.fresh)) =
    storage (snd (fetch (Sample.open_stream Sample.alice) Sample.fresh)) !! "userContext" /\
  is_Some (userContext (snd (fetch (Sample.open_stream Sample.alice) Sample.fresh))) /\
  is_Some (transport (snd (fetch (Sample.open_stream Sample.alice) Sample.fresh))).
Proof.
  apply (context_mirrors_storage (Sample.open_stream Sample.alice) Sample.fresh
           Sample.alice).
  - reflexivity.
  - reflexivity.
  - intros c H. discriminate H.
Defined.

End DurableObjectLaws.

(** ** Identities in paths *)

Module PathLaws.

Lemma append_empty_r (s : string) : s +:+ "" = s.
Proof.
  induction s as [|c s IH]; [reflexivity|].
  change (String c (s +:+ "") = String c s). rewrite IH. reflexivity.
Qed.

(** No piece of a split holds the separator. *)
Lemma split_pieces_no_sep (sep : ascii) (s : string) :
  List.Forall (all_chars (fun c => c <> sep)) (Js.split sep s).
Proof.
  induction s as [|c s IH]; cbn [Js.split].
  - constructor; [exact I|constructor].
  - destruct (Ascii.eqb_spec c sep) as [->|Hne].
    + constructor; [exact I|exact IH].
    + destruct (Js.split sep s) as [|piece pieces].
      * constructor; [split; [exact Hne|exact I]|constructor].
      * inversion IH as [|? ? Hp Hps]; subst.
        constructor; [split; [exact Hne|exact Hp]|exact Hps].
Qed.

(** X10: what [extractUserIdFromPath] returns is one segment of the path: it
    is never the empty string and it holds no "/". *)
Theorem extracted_userId_is_a_segment (pathname u : string) :
  extractUserIdFromPath pathname = Some u ->
  Js.truthy u = true /\ all_chars (fun c => c <> "/"%char) u.
Proof.
  unfold extractUserIdFromPath.
  destruct (List.filter Js.truthy (Js.split "/" pathname))
    as [|first [|second rest]] eqn:Hparts; try discriminate.
  destruct (String.eqb second "sse" || String.eqb second "messages"); [|discriminate].
  intros [= <-].
  assert (Hin : In first (List.filter Js.truthy (Js.split "/" pathname)))
    by (rewrite Hparts; left; reflexivity).
  apply List.filter_In in Hin. destruct Hin as [Hin Ht]. split; [exact Ht|].
  pose proof (split_pieces_no_sep "/" pathname) as Hall.
  rewrite List.Forall_forall in Hall. exact (Hall first Hin).
Qed.

(** X11: a well-formed identity survives the trip through a path: the router
    reads it back from [/I/sse] and [/I/messages], and the Durable Object
    reads it back from every path that starts with [/I/]. *)
Theorem identity_path_round_trip (I : string) :
  isValidUserId I = true ->
  extractUserIdFromPath ("/" +:+ I +:+ "/sse") = Some I /\
  extractUserIdFromPath ("/" +:+ I +:+ "/messages") = Some I /\
  forall (request : Request) (tail : string),
    pathname request = "/" +:+ I +:+ "/" +:+ tail ->
    MyDurableObject.path_userId request = Some I.
Proof.
  intros HI. split; [|split].
  - unfold extractUserIdFromPath.
    change ("/" +:+ I +:+ "/sse") with ("/" +:+ I +:+ "/" +:+ "sse").
    rewrite (DurableObjectFacts.split_user_path I "sse" HI).
    change (Js.split "/" "sse") with ["sse"].
    cbn [List.filter Js.truthy]. rewrite (DurableObjectFacts.valid_truthy I HI).
    reflexivity.
  - unfold extractUserIdFromPath.
    change ("/" +:+ I +:+ "/messages") with ("/" +:+ I +:+ "/" +:+ "messages").
    rewrite (DurableObjectFacts.split_user_path I "messages" HI).
    change (Js.split "/" "messages") with ["messages"].
    cbn [List.filter Js.truthy]. rewrite (DurableObjectFacts.valid_truthy I HI).
    reflexivity.
  - intros request tail Hp. unfold MyDurableObject.path_userId. rewrite Hp.
    rewrite (DurableObjectFacts.split_user_path I tail HI). reflexivity.
Qed.

(** The identity read from a path with a doubled slash. *)
Lemma extracted_userId_is_a_segment_witness :
  Js.truthy Sample.alice = true /\ all_chars (fun c => c <> "/"%char) Sample.alice.
Proof.
  apply (extracted_userId_is_a_segment "//abc12345678901234567/sse/" Sample.alice).
  reflexivity.
Defined.

(** The trip of [alice]. *)
Lemma identity_path_round_trip_witness :
  extractUserIdFromPath ("/" +:+ Sample.alice +:+ "/sse") = Some Sample.alice /\
  extractUserIdFromPath ("/" +:+ Sample.alice +:+ "/messages") = Some Sample.alice /\
  forall (request : Request) (tail : string),
    pathname request = "/" +:+ Sample.alice +:+ "/" +:+ tail ->
    MyDurableObject.path_userId request = Some Sample.alice.
Proof.
  apply (identity_path_round_trip Sample.alice). reflexivity.
Defined.

End PathLaws.

(** ** The router, and the router in front of the Durable Object *)

Module RouterLaws.

Import Router.

Lemma message_path_routed (I : string) (request : Request) :
  isValidUserId I = true -> pathname request = "/" +:+ I +:+ "/messages" ->
  fetch request = ToDurableObject (locate I) request.
Proof.
  intros HI Hp.
  assert (Hend : Js.endsWith ("/" +:+ I +:+ "/messages") "/messages" = true).
  { rewrite <- (append_assoc "/" I "/messages"). apply endsWith_app. }
  unfold fetch. rewrite Hp, Hend, orb_true_r. unfold extractUserIdFromPath.
  change ("/" +:+ I +:+ "/messages") with ("/" +:+ I +:+ "/" +:+ "messages").
  rewrite (DurableObjectFacts.split_user_path I "messages" HI).
  change (Js.split "/" "messages") with ["messages"].
  cbn [List.filter Js.truthy]. rewrite (DurableObjectFacts.valid_truthy I HI).
  cbn. rewrite HI, (DurableObjectFacts.valid_truthy I HI). reflexivity.
Qed.

(** X12: the router hands a request to a Durable Object exactly when the path
    passes its test and [extractUserIdFromPath] finds a well-formed identity
    in it; the object is then the one named after that identity and the
    request is passed on as it came. *)
Theorem to_durable_object_iff (request request' : Request) (name : string) :
  fetch request = ToDurableObject name request' <->
  request' = request /\
  Js.includes (pathname request) "sse" || Js.endsWith (pathname request) "/messages"
    = true /\
  exists I, extractUserIdFromPath (pathname request) = Some I /\
            isValidUserId I = true /\ name = locate I.
Proof.
  unfold fetch. split.
  - destruct (Js.includes (pathname request) "sse"
              || Js.endsWith (pathname request) "/messages"); [|discriminate].
    destruct (extractUserIdFromPath (pathname request)) as [u|]; [|discriminate].
    destruct (negb (Js.truthy u)); [discriminate|].
    destruct (isValidUserId u) eqn:Hu; [|discriminate].
    cbn [negb]. intros [= <- <-]. split; [reflexivity|].
    split; [reflexivity|]. exists u. auto.
  - intros (-> & Hgate & I & Hext & HI & ->).
    rewrite Hgate, Hext, HI, (DurableObjectFacts.valid_truthy I HI). reflexivity.
Qed.

(** X18: the router answers a request itself exactly when the path passes
    its test and holds no well-formed identity where one is expected; its
    answer is then a 400, and no Durable Object is addressed. *)
Theorem router_rejects_iff_malformed (request : Request) :
  (exists r, fetch request = Respond r /\ status r = 400) <->
  Js.includes (pathname request) "sse" || Js.endsWith (pathname request) "/messages"
    = true /\
  (forall I, extractUserIdFromPath (pathname request) = Some I ->
             isValidUserId I = false).
Proof.
  unfold fetch.
  destruct (Js.includes (pathname request) "sse"
            || Js.endsWith (pathname request) "/messages").
  - destruct (extractUserIdFromPath (pathname request)) as [u|].
    + destruct (Js.truthy u) eqn:Ht; cbn [negb].
      * destruct (isValidUserId u) eqn:Hu; cbn [negb].
        -- split; [intros [r [H _]]; discriminate H|].
           intros [_ H]. specialize (H u eq_refl). congruence.
        -- split; [|intros _; eexists; split; reflexivity]. intros _. split; [reflexivity|].
           intros I [= <-]. exact Hu.
      * split; [|intros _; eexists; split; reflexivity]. intros _. split; [reflexivity|].
        intros I Hi. assert (I = u) as -> by congruence.
        destruct u as [|a u']; [reflexivity|cbn in Ht; discriminate Ht].
    + split; [|intros _; eexists; split; reflexivity]. intros _. split; [reflexivity|]. intros I H. discriminate H.
  - split; [intros [r [H _]]; discriminate H|]. intros [H _]. discriminate H.
Qed.

(** X13: a request to [/I/sse] or [/I/messages], for a well-formed identity
    [I], reaches the Durable Object named after [I], unchanged. *)
Theorem addressed_identity_reaches_its_object (I : string) (request : Request) :
  isValidUserId I = true ->
  pathname request = "/" +:+ I +:+ "/sse" \/
  pathname request = "/" +:+ I +:+ "/messages" ->
  fetch request = ToDurableObject (locate I) request.
Proof.
  intros HI [Hp|Hp].
  - exact (RouterFacts.stream_path_routed I request HI Hp).
  - exact (message_path_routed I request HI Hp).
Qed.

(** The message post of [alice]. *)
Lemma addressed_identity_reaches_its_object_witness :
  fetch (Sample.post_message Sample.alice "hello")
    = ToDurableObject (locate Sample.alice) (Sample.post_message Sample.alice "hello").
Proof.
  apply (addressed_identity_reaches_its_object Sample.alice
           (Sample.post_message Sample.alice "hello")).
  - reflexivity.
  - right. reflexivity.
Defined.

(** On a path that starts with "/", the identity the Durable Object reads is
    the one the router read, unless the path starts with a doubled slash. *)
Lemma router_and_object_agree (request : Request) (rest I : string) :
  pathname request = String "/" rest ->
  extractUserIdFromPath (pathname request) = Some I ->
  MyDurableObject.path_userId request = Some I \/
  MyDurableObject.path_userId request = Some EmptyString.
Proof.
  intros Hp. unfold extractUserIdFromPath, MyDurableObject.path_userId. rewrite Hp.
  change (Js.split "/" (String "/" rest)) with (EmptyString :: Js.split "/" rest).
  cbn [List.filter Js.truthy nth_error].
  destruct (Js.split "/" rest) as [|piece pieces]; [discriminate|].
  destruct piece as [|c piece]; [right; reflexivity|].
  cbn [List.filter Js.truthy].
  destruct (List.filter Js.truthy pieces) as [|second others]; [discriminate|].
  destruct (String.eqb second "sse" || String.eqb second "messages"); [|discriminate].
  intros [= <-]. left. reflexivity.
Qed.

(** X14: behind the router, the Durable Object never answers 403.  If every
    stored context of the object named [name] belongs to the identity it is
    named after, a request the router hands to it is not refused for a
    mismatch, and the same holds of the storage afterwards. *)
Theorem routed_request_never_forbidden (request request' : Request)
    (name rest : string) (st : MyDurableObject.State) :
  pathname request = String "/" rest ->
  fetch request = ToDurableObject name request' ->
  (forall c, MyDurableObject.storage st !! "userContext" = Some c ->
             locate (MyDurableObject.userId c) = name) ->
  exists r st',
    MyDurableObject.fetch request' st = (inr r, st') /\
    status r <> 403 /\
    (forall c, MyDurableObject.storage st' !! "userContext" = Some c ->
               locate (MyDurableObject.userId c) = name).
Proof.
  intros Hp Hroute Hinv.
  destruct (RouterFacts.routed_by_locate request request' name Hroute)
    as (-> & I & Hext & HI & ->).
  destruct (router_and_object_agree request rest I Hp Hext) as [Hpath|Hpath].
  - assert (Hb : forall c, MyDurableObject.storage st !! "userContext" = Some c ->
                           MyDurableObject.userId c = I).
    { intros c Hc. specialize (Hinv c Hc). unfold locate in Hinv.
      injection Hinv as Hinv. exact Hinv. }
    destruct (FetchFacts.fetch_accepted request st I Hpath HI Hb)
      as (r & st' & c' & Hf & Hs & Hsto & _ & Hid & _).
    exists r, st'. split; [exact Hf|]. split.
    + intros E. rewrite E in Hs. cbn in Hs. intuition discriminate.
    + intros c Hc. rewrite Hsto, lookup_insert_eq in Hc. injection Hc as <-.
      rewrite Hid. reflexivity.
  - eexists _, st. split.
    + apply FetchFacts.fetch_invalid. rewrite Hpath. intros u [= <-]. reflexivity.
    + split; [discriminate|exact Hinv].
Qed.

(** The first stream of [alice], through the router, on a fresh object. *)
Lemma routed_request_never_forbidden_witness :
  exists r st',
    MyDurableObject.fetch (Sample.open_stream Sample.alice) Sample.fresh = (inr r, st') /\
    status r <> 403 /\
    (forall c, MyDurableObject.storage st' !! "userContext" = Some c ->
               locate (MyDurableObject.userId c) = locate Sample.alice).
Proof.
  apply (routed_request_never_forbidden
           (Sample.open_stream Sample.alice) (Sample.open_stream Sample.alice)
           (locate Sample.alice) "abc12345678901234567/sse" Sample.fresh).
  - reflexivity.
  - reflexivity.
  - intros c H. discriminate H.
Defined.

End RouterLaws.

(** ** The tool handlers *)

Module ToolsLaws.

Import Tools.

Lemma join_holds (sep x : string) (xs : list string) :
  In x xs -> exists a b, Js.join sep xs = a +:+ x +:+ b.
Proof.
  induction xs as [|y ys IH]; [intros []|].
  intros [->|Hin].
  - destruct ys as [|z zs].
    + exists EmptyString, EmptyString. cbn [Js.join].
      rewrite PathLaws.append_empty_r. reflexivity.
    + exists EmptyString, (sep +:+ Js.join sep (z :: zs)). reflexivity.
  - destruct ys as [|z zs]; [destruct Hin|].
    destruct (IH Hin) as (a & b & E).
    exists (y +:+ sep +:+ a), b.
    change (Js.join sep (y :: z :: zs)) with (y +:+ sep +:+ Js.join sep (z :: zs)).
    rewrite E, !append_assoc. reflexivity.
Qed.

Section Handlers.

Context {Store : Type}.
Variable memories_list : list string -> Store -> list Memory.
Variable memories_add : string -> list string -> Store -> Store.
Variable search_execute : string -> list string -> Store -> list (list string).

(** X15: when the add handler answers 400, for a malformed identity or a
    listing of more than 2000 records, the store is the one it was given and
    the handler has asked the client for nothing but, at most, the listing. *)
Theorem refused_add_changes_nothing (userId thing : string) (st : Store) :
  tool_status (response (add_handler memories_list memories_add userId thing st)) = 400 ->
  store (add_handler memories_list memories_add userId thing st) = st /\
  (calls (add_handler memories_list memories_add userId thing st) = [] \/
   calls (add_handler memories_list memories_add userId thing st)
     = [MemoriesList [userId]]).
Proof.
  unfold add_handler.
  destruct (negb (Js.truthy userId) || negb (isValidUserId userId));
    ToolsFacts.run_client; cbn [response store calls tool_status]; [auto|].
  destruct (2000 <? length (memories_list [userId] st));
    cbn [response store calls tool_status]; [auto|intros H; discriminate H].
Qed.

(** X16: the search handler never changes the store, and for a well-formed
    identity it answers 200 with a text that holds the content of every
    chunk of every result the client returned for that identity. *)
Theorem search_answer_holds_every_chunk (userId q : string) (st : Store) :
  store (search_handler search_execute userId q st) = st /\
  (isValidUserId userId = true ->
   tool_status (response (search_handler search_execute userId q st)) = 200 /\
   forall (result : list string) (chunk : string),
     In result (search_execute q [userId] st) -> In chunk result ->
     Js.includes (tool_text (response (search_handler search_execute userId q st)))
                 chunk = true).
Proof.
  unfold search_handler. split.
  - destruct (negb (Js.truthy userId) || negb (isValidUserId userId));
      ToolsFacts.run_client; reflexivity.
  - intros Hu. rewrite Hu, (DurableObjectFacts.valid_truthy userId Hu).
    cbn [negb orb]. ToolsFacts.run_client. cbn [response tool_status tool_text].
    split; [reflexivity|]. intros result chunk Hres Hchunk.
    destruct (join_holds "," (Js.join (newline +:+ newline) result)
                (map (Js.join (newline +:+ newline)) (search_execute q [userId] st)))
      as (a & b & E); [apply in_map; exact Hres|].
    destruct (join_holds (newline +:+ newline) chunk result Hchunk) as (a' & b' & E').
    rewrite E, E'.
    replace (a +:+ (a' +:+ chunk +:+ b') +:+ b)
      with ((a +:+ a') +:+ chunk +:+ (b' +:+ b))
      by (rewrite !append_assoc; reflexivity).
    apply includes_app.
Qed.

End Handlers.

(** An add refused at 2001 records of [alice]. *)
Lemma refused_add_changes_nothing_witness :
  store (add_handler ref_list ref_add Sample.alice "note" (Sample.store_of 2001))
    = Sample.store_of 2001 /\
  (calls (add_handler ref_list ref_add Sample.alice "note" (Sample.store_of 2001)) = [] \/
   calls (add_handler ref_list ref_add Sample.alice "note" (Sample.store_of 2001))
     = [MemoriesList [Sample.alice]]).
Proof.
  apply (refused_add_changes_nothing ref_list ref_add Sample.alice "note"
           (Sample.store_of 2001)).
  vm_compute. reflexivity.
Defined.

(** A search of [alice] over her three records. *)
Lemma search_answer_holds_every_chunk_witness :
  store (search_handler ref_search Sample.alice "note" (Sample.store_of 3))
    = Sample.store_of 3 /\
  tool_status (response (search_handler ref_search Sample.alice "note"
                           (Sample.store_of 3))) = 200 /\
  Js.includes (tool_text (response (search_handler ref_search Sample.alice "note"
                                      (Sample.store_of 3)))) "note" = true.
Proof.
  destruct (search_answer_holds_every_chunk ref_search Sample.alice "note"
              (Sample.store_of 3)) as [Hstore Hvalid].
  destruct (Hvalid eq_refl) as [Hstatus Hchunks].
  split; [exact Hstore|]. split; [exact Hstatus|].
  apply (Hchunks ["note"] "note"); left; reflexivity.
Defined.

End ToolsLaws.
